(** * util.py: vocabulary, line encoders, n-gram hashes and the batch iterator

    A shallow embedding of [src/util.py].  Python integers are [Z], Python
    lists are [list], a [str] is a [string] with one [ascii] per character
    (the embedding is exact for ASCII text), a [dict] is an association list
    in insertion order with unique keys, and an exception is the [Raise]
    branch of [result].  Mutable state (the iterator's cursor) is passed
    explicitly. *)

From Stdlib Require Import ZArith List String Ascii Bool Lia.
From Stdlib Require Import Permutation Sorted.
Import ListNotations.

Open Scope string_scope.
Open Scope list_scope.
Open Scope Z_scope.

(** ** Exceptions *)

Inductive exn : Type :=
| ValueError
| TypeError
| IndexError
| ZeroDivisionError.

Inductive result (A : Type) : Type :=
| Ok (a : A)
| Raise (e : exn).

Arguments Ok {A} a.
Arguments Raise {A} e.

Definition bind {A B : Type} (m : result A) (k : A -> result B) : result B :=
  match m with
  | Ok a => k a
  | Raise e => Raise e
  end.

Notation "x <- m ;; k" := (bind m (fun x => k))
  (at level 61, m at next level, right associativity).
Notation "' p <- m ;; k" := (bind m (fun x => let p := x in k))
  (at level 61, p pattern, m at next level, right associativity).

(** ** Python built-ins used by the module *)

Module Py.

Definition len {A : Type} (l : list A) : Z := Z.of_nat (List.length l).

(** [a // b] *)
Definition floordiv (a b : Z) : result Z :=
  if b =? 0 then Raise ZeroDivisionError else Ok (a / b).

(** [a % b] *)
Definition mod_ (a b : Z) : result Z :=
  if b =? 0 then Raise ZeroDivisionError else Ok (a mod b).

(** A slice bound [i] against a list of length [n]: negative bounds count
    from the end, and every bound is clamped to [0..n]. *)
Definition clamp (n i : Z) : Z :=
  if i <? 0 then Z.max (i + n) 0 else Z.min i n.

(** [l[lo:hi]] *)
Definition slice {A : Type} (l : list A) (lo hi : Z) : list A :=
  let n := len l in
  let lo' := clamp n lo in
  let hi' := clamp n hi in
  firstn (Z.to_nat (hi' - lo')) (skipn (Z.to_nat lo') l).

(** [l[i]] *)
Definition index {A : Type} (l : list A) (i : Z) : result A :=
  let j := if i <? 0 then i + len l else i in
  if j <? 0 then Raise IndexError
  else match nth_error l (Z.to_nat j) with
       | Some a => Ok a
       | None => Raise IndexError
       end.

(** [[x] * k] *)
Definition times {A : Type} (x : A) (k : Z) : list A :=
  repeat x (Z.to_nat k).

(** [range(n)] *)
Definition range (n : Z) : list Z :=
  map Z.of_nat (seq 0 (Z.to_nat n)).

(** [sum(l)] *)
Definition sum (l : list Z) : Z := fold_right Z.add 0 l.

End Py.

(** ** The batch iterator: [class DatasetIterater] *)

Module DatasetIterater.

Section WithTensors.

(** The encoded records, the device handle and the tensors are those of
    the caller and of the tensor runtime; [_to_tensor] assembles the
    tensors of one slice of records. *)
Context {record device tensors : Type}.
Variable _to_tensor : device -> string -> list record -> tensors.

Record t : Type := mk {
  batch_size : Z;
  batches : list record;
  n_batches : Z;
  residue : bool;
  index : Z;
  device_ : device;
  model_name : string
}.

Definition set_index (self : t) (i : Z) : t :=
  mk (batch_size self) (batches self) (n_batches self) (residue self)
     i (device_ self) (model_name self).

(** [__init__], lines 147-156. *)
Definition __init__ (batches : list record) (batch_size : Z)
           (dev : device) (model_name : string) : result t :=
  n_batches <- Py.floordiv (Py.len batches) batch_size ;;
  r <- Py.mod_ (Py.len batches) n_batches ;;
  let residue := negb (r =? 0) in
  Ok (mk batch_size batches n_batches residue 0 dev model_name).

(** What a call of [__next__] hands back: a batch, or [StopIteration]. *)
Inductive outcome : Type :=
| Yield (b : tensors)
| StopIteration.

(** [__next__], lines 179-196: the new state and the outcome. *)
Definition __next__ (self : t) : t * outcome :=
  if residue self && (index self =? n_batches self) then
    let slice := Py.slice (batches self)
                          (index self * batch_size self)
                          (Py.len (batches self)) in
    (set_index self (index self + 1),
     Yield (_to_tensor (device_ self) (model_name self) slice))
  else if index self >? n_batches self then
    (set_index self 0, StopIteration)
  else
    let slice := Py.slice (batches self)
                          (index self * batch_size self)
                          ((index self + 1) * batch_size self) in
    (set_index self (index self + 1),
     Yield (_to_tensor (device_ self) (model_name self) slice)).

(** [__len__], lines 201-205. *)
Definition __len__ (self : t) : Z :=
  if residue self then n_batches self + 1 else n_batches self.

(** [for batch in self]: [__iter__] returns the iterator itself and
    [__next__] is called until it raises [StopIteration].  The result is
    the list of batches and the iterator as the loop leaves it; [None]
    when [fuel] calls were not enough. *)
Fixpoint iterate (fuel : nat) (self : t) : option (list tensors * t) :=
  match fuel with
  | O => None
  | S fuel' =>
      match __next__ self with
      | (self', StopIteration) => Some ([], self')
      | (self', Yield b) =>
          match iterate fuel' self' with
          | Some (bs, final) => Some (b :: bs, final)
          | None => None
          end
      end
  end.

End WithTensors.

Arguments t : clear implicits.
Arguments outcome : clear implicits.

End DatasetIterater.

(** [build_iterator], lines 208-211, over a configuration that carries the
    batch size, the device and the model name. *)
Record config (device : Type) : Type := {
  model_name : string;
  pad_size : Z;
  batch_size : Z;
  n_gram_vocab : Z;
  device_of : device
}.

Arguments model_name {device} c.
Arguments pad_size {device} c.
Arguments batch_size {device} c.
Arguments n_gram_vocab {device} c.
Arguments device_of {device} c.

(** A concrete reading of the tensor runtime for running the iterator: a
    batch keeps the rows it was built from, on the device it was sent to. *)
Module Rows.
Record tensors (record device : Type) : Type := {
  rows : list record;
  on_device : device;
  family : string
}.
Arguments rows {record device} _.
Arguments on_device {record device} _.
Arguments family {record device} _.

Definition _to_tensor {record device : Type}
           (dev : device) (name : string) (datas : list record)
  : tensors record device :=
  {| rows := datas; on_device := dev; family := name |}.
End Rows.

(** ** Strings: [str.strip], [str.split], [int(str)] *)

Module Str.

Definition code (c : ascii) : Z := Z.of_nat (nat_of_ascii c).

(** The characters [str.strip()] removes. *)
Definition isspace (c : ascii) : bool :=
  let n := code c in
  ((9 <=? n) && (n <=? 13)) || ((28 <=? n) && (n <=? 31)) || (n =? 32).

Fixpoint lstrip (s : string) : string :=
  match s with
  | EmptyString => EmptyString
  | String c r => if isspace c then lstrip r else s
  end.

Fixpoint rstrip (s : string) : string :=
  match s with
  | EmptyString => EmptyString
  | String c r =>
      match rstrip r with
      | EmptyString => if isspace c then EmptyString else String c EmptyString
      | r' => String c r'
      end
  end.

(** [s.strip()] *)
Definition strip (s : string) : string := rstrip (lstrip s).

(** [s.split(sep)] for a one-character separator: one more part than there
    are separators in [s]. *)
Fixpoint split (sep : ascii) (s : string) : list string :=
  match s with
  | EmptyString => [EmptyString]
  | String c r =>
      if Ascii.eqb c sep then EmptyString :: split sep r
      else match split sep r with
           | part :: parts => String c part :: parts
           | [] => [String c EmptyString]
           end
  end.

(** [[y for y in x]] *)
Fixpoint chars (s : string) : list string :=
  match s with
  | EmptyString => []
  | String c r => String c EmptyString :: chars r
  end.

(** The characters [int()] skips at both ends of an ASCII string. *)
Definition int_isspace (c : ascii) : bool :=
  let n := code c in
  ((9 <=? n) && (n <=? 13)) || (n =? 32).

Fixpoint int_lstrip (s : string) : string :=
  match s with
  | EmptyString => EmptyString
  | String c r => if int_isspace c then int_lstrip r else s
  end.

Fixpoint int_rstrip (s : string) : string :=
  match s with
  | EmptyString => EmptyString
  | String c r =>
      match int_rstrip r with
      | EmptyString =>
          if int_isspace c then EmptyString else String c EmptyString
      | r' => String c r'
      end
  end.

Definition digit (c : ascii) : option Z :=
  let n := code c in
  if (48 <=? n) && (n <=? 57) then Some (n - 48) else None.

(** Decimal digits, single underscores allowed between two digits. *)
Fixpoint int_digits (s : string) (acc : Z) (after_digit : bool) : option Z :=
  match s with
  | EmptyString => if after_digit then Some acc else None
  | String c r =>
      if Ascii.eqb c "_"%char then
        if after_digit then int_digits r acc false else None
      else match digit c with
           | Some d => int_digits r (acc * 10 + d) true
           | None => None
           end
  end.

(** [int(s)] *)
Definition int (s : string) : result Z :=
  let s := int_rstrip (int_lstrip s) in
  let '(sign, body) :=
    match s with
    | String "+"%char r => (1, r)
    | String "-"%char r => (-1, r)
    | _ => (1, s)
    end in
  match int_digits body 0 false with
  | Some v => Ok (sign * v)
  | None => Raise ValueError
  end.

End Str.

(** [a, b = parts] *)
Definition unpack2 {A : Type} (parts : list A) : result (A * A) :=
  match parts with
  | [a; b] => Ok (a, b)
  | _ => Raise ValueError
  end.

(** ** Dictionaries with [str] keys, in insertion order *)

Module Dict.

Definition t (V : Type) : Type := list (string * V).

(** [d.get(k)] *)
Fixpoint get {V : Type} (d : t V) (k : string) : option V :=
  match d with
  | [] => None
  | (k', v) :: r => if String.eqb k' k then Some v else get r k
  end.

(** [d.get(k, default)] *)
Definition get_default {V : Type} (d : t V) (k : string) (default : V) : V :=
  match get d k with
  | Some v => v
  | None => default
  end.

(** [d[k] = v]: an existing key keeps its place, a new one goes last. *)
Fixpoint set {V : Type} (d : t V) (k : string) (v : V) : t V :=
  match d with
  | [] => [(k, v)]
  | (k', v') :: r =>
      if String.eqb k' k then (k', v) :: r else (k', v') :: set r k v
  end.

(** [d.update(other)] *)
Definition update {V : Type} (d other : t V) : t V :=
  fold_left (fun acc kv => set acc (fst kv) (snd kv)) other d.

Definition keys {V : Type} (d : t V) : list string := map fst d.
Definition values {V : Type} (d : t V) : list V := map snd d.

End Dict.

(** ** Reserved tokens, lines 10-11 *)

Definition MAX_VOCAB_SIZE : Z := 10000.
Definition UNK : string := "<UNK>".
Definition PAD : string := "<PAD>".
Definition CLS : string := "[CLS]".

(** ** [build_vocab], lines 14-39 *)

(** [sorted(items, key=lambda x: x[1], reverse=True)]: descending counts,
    items of equal count in their original order. *)
Fixpoint insert_desc (x : string * Z) (l : list (string * Z))
  : list (string * Z) :=
  match l with
  | [] => [x]
  | y :: r => if snd y >? snd x then y :: insert_desc x r else x :: l
  end.

Definition sorted_desc (l : list (string * Z)) : list (string * Z) :=
  fold_right insert_desc [] l.

(** [enumerate(l)] *)
Definition enumerate {A : Type} (l : list A) : list (Z * A) :=
  combine (Py.range (Py.len l)) l.

(** The body of the loop over the lines of the corpus, lines 21-26. *)
Definition count_line (tokenizer : string -> list string)
           (vocab_dict : Dict.t Z) (line : string) : Dict.t Z :=
  let line := Str.strip line in
  if String.eqb line "" then vocab_dict
  else
    let content := hd "" (Str.split "009"%char line) in
    fold_left
      (fun d word => Dict.set d word (Dict.get_default d word 0 + 1))
      (tokenizer content) vocab_dict.

Definition build_vocab (file : list string) (tokenizer : string -> list string)
           (max_size min_freq : Z) : Dict.t Z :=
  let vocab_dict := fold_left (count_line tokenizer) file [] in
  let vocab_list :=
    Py.slice
      (sorted_desc (filter (fun item => snd item >=? min_freq) vocab_dict))
      0 max_size in
  let vocab_dict :=
    fold_left (fun d iw => Dict.set d (fst (snd iw)) (fst iw))
              (enumerate vocab_list) [] in
  Dict.update vocab_dict
              [(UNK, Py.len vocab_dict); (PAD, Py.len vocab_dict + 1)].

(** The two tokenizers of [build_dataset], lines 43-46. *)
Definition tokenizer (ues_word : bool) (x : string) : list string :=
  if ues_word then Str.split " "%char x else Str.chars x.

(** ** The n-gram hashes, lines 58-65 *)

(** A value read from the vocabulary is an id or [None]; multiplying [None]
    by an integer raises [TypeError]. *)
Definition mul (v : option Z) (k : Z) : result Z :=
  match v with
  | Some z => Ok (z * k)
  | None => Raise TypeError
  end.

Definition biGramHash (sequence : list (option Z)) (t buckets : Z)
  : result Z :=
  t1 <- (if t - 1 >=? 0 then Py.index sequence (t - 1) else Ok (Some 0)) ;;
  p1 <- mul t1 14918087 ;;
  Py.mod_ p1 buckets.

Definition triGramHash (sequence : list (option Z)) (t buckets : Z)
  : result Z :=
  t1 <- (if t - 1 >=? 0 then Py.index sequence (t - 1) else Ok (Some 0)) ;;
  t2 <- (if t - 2 >=? 0 then Py.index sequence (t - 2) else Ok (Some 0)) ;;
  p2 <- mul t2 14918087 ;;
  p1 <- mul t1 14918087 ;;
  Py.mod_ (p2 * 18408749 + p1) buckets.

(** ** The generic line encoder: [build_dataset.load_dataset], lines 67-105 *)

(** An element of the list [token]: a token of the tokenizer, or what
    [vocab.get(PAD)] returned (an id, or [None]) once the list is extended. *)
Inductive tok : Type :=
| Word (s : string)
| Looked (v : option Z).

(** The tuples appended to [contents], lines 100-103. *)
Inductive record : Type :=
| Rec3 (words_line : list (option Z)) (label seq_len : Z)
| Rec5 (words_line : list (option Z)) (label seq_len : Z)
       (bigram trigram : list Z).

Definition words_line (r : record) : list (option Z) :=
  match r with
  | Rec3 w _ _ => w
  | Rec5 w _ _ _ _ => w
  end.

Definition label (r : record) : Z :=
  match r with
  | Rec3 _ l _ => l
  | Rec5 _ l _ _ _ => l
  end.

Definition seq_len (r : record) : Z :=
  match r with
  | Rec3 _ _ n => n
  | Rec5 _ _ n _ _ => n
  end.

Section LoadDataset.

Context {device : Type}.
Variable cfg : config device.
Variable vocab : Dict.t Z.
Variable tokenizer_ : string -> list string.

(** [vocab.get(word, default)]: the keys of the vocabulary are strings, so
    a looked-up value is never one of them. *)
Definition vocab_get (word : tok) (default : option Z) : option Z :=
  match word with
  | Word s =>
      match Dict.get vocab s with
      | Some id => Some id
      | None => default
      end
  | Looked _ => default
  end.

(** Lines 77-84: the padded or cut token list and the recorded length. *)
Definition pad_or_cut (token : list tok) (pad_size : Z)
  : list tok * Z :=
  let seq_len := Py.len token in
  if negb (pad_size =? 0) then
    if Py.len token <? pad_size then
      (token ++ Py.times (Looked (Dict.get vocab PAD))
                         (pad_size - Py.len token),
       seq_len)
    else (Py.slice token 0 pad_size, pad_size)
  else (token, seq_len).

(** Lines 96-98: the loop over [range(pad_size)]. *)
Fixpoint ngrams (words_line : list (option Z)) (buckets : Z)
         (positions : list Z) (bigram trigram : list Z)
  : result (list Z * list Z) :=
  match positions with
  | [] => Ok (bigram, trigram)
  | i :: rest =>
      b <- biGramHash words_line i buckets ;;
      t <- triGramHash words_line i buckets ;;
      ngrams words_line buckets rest (bigram ++ [b]) (trigram ++ [t])
  end.

(** The loop body, lines 71-103: [None] for a blank line. *)
Definition encode_line (pad_size : Z) (line : string)
  : result (option record) :=
  let line := Str.strip line in
  if String.eqb line "" then Ok None
  else
    '(content, label) <- unpack2 (Str.split "009"%char line) ;;
    let token := map Word (tokenizer_ content) in
    let '(token, seq_len) := pad_or_cut token pad_size in
    let words_line :=
      map (fun word => vocab_get word (Dict.get vocab UNK)) token in
    if String.eqb (model_name cfg) "FastText" then
      let buckets := n_gram_vocab cfg in
      '(bigram, trigram) <-
        ngrams words_line buckets (Py.range pad_size) [] [] ;;
      label <- Str.int label ;;
      Ok (Some (Rec5 words_line label seq_len bigram trigram))
    else
      label <- Str.int label ;;
      Ok (Some (Rec3 words_line label seq_len)).

Fixpoint load_loop (contents : list record) (file : list string)
         (pad_size : Z) : result (list record) :=
  match file with
  | [] => Ok contents
  | line :: rest =>
      r <- encode_line pad_size line ;;
      match r with
      | Some rec => load_loop (contents ++ [rec]) rest pad_size
      | None => load_loop contents rest pad_size
      end
  end.

Definition load_dataset (file : list string) (pad_size : Z)
  : result (list record) :=
  load_loop [] file pad_size.

End LoadDataset.

(** [build_dataset], lines 42-110: [cache] is the vocabulary stored at
    [config.vocab_path], when that file exists. *)
Definition build_dataset {device : Type} (cfg : config device)
           (ues_word : bool) (cache : option (Dict.t Z))
           (train_file dev_file test_file : list string)
  : result (Dict.t Z * list record * list record * list record) :=
  let vocab :=
    match cache with
    | Some v => v
    | None => build_vocab train_file (tokenizer ues_word) MAX_VOCAB_SIZE 1
    end in
  train <- load_dataset cfg vocab (tokenizer ues_word) train_file
                        (pad_size cfg) ;;
  dev <- load_dataset cfg vocab (tokenizer ues_word) dev_file
                      (pad_size cfg) ;;
  test <- load_dataset cfg vocab (tokenizer ues_word) test_file
                       (pad_size cfg) ;;
  Ok (vocab, train, dev, test).

(** ** The sub-word line encoder: [build_dataset_bert.load_dataset],
    lines 114-138 *)

Record bert_record : Type := {
  token_ids : list Z;
  bert_label : Z;
  bert_seq_len : Z;
  mask : list Z
}.

Section LoadDatasetBert.

(** [config.tokenizer.tokenize] and [config.tokenizer.convert_tokens_to_ids] *)
Variable tokenize : string -> list string.
Variable convert_tokens_to_ids : list string -> list Z.

Definition encode_line_bert (pad_size : Z) (line : string)
  : result (option bert_record) :=
  let line := Str.strip line in
  if String.eqb line "" then Ok None
  else
    '(content, label) <- unpack2 (Str.split "009"%char line) ;;
    let token := tokenize content in
    let token := CLS :: token in
    let seq_len := Py.len token in
    let mask := [] in
    let token_ids := convert_tokens_to_ids token in
    let '(mask, token_ids) :=
      if negb (pad_size =? 0) then
        if Py.len token <? pad_size then
          (Py.times 1 (Py.len token_ids)
             ++ Py.times 0 (pad_size - Py.len token),
           token_ids ++ Py.times 0 (pad_size - Py.len token))
        else (Py.times 1 pad_size, Py.slice token_ids 0 pad_size)
      else (mask, token_ids) in
    label <- Str.int label ;;
    Ok (Some {| token_ids := token_ids; bert_label := label;
                bert_seq_len := seq_len; mask := mask |}).

Fixpoint load_loop_bert (contents : list bert_record) (file : list string)
         (pad_size : Z) : result (list bert_record) :=
  match file with
  | [] => Ok contents
  | line :: rest =>
      r <- encode_line_bert pad_size line ;;
      match r with
      | Some rec => load_loop_bert (contents ++ [rec]) rest pad_size
      | None => load_loop_bert contents rest pad_size
      end
  end.

Definition load_dataset_bert (file : list string) (pad_size : Z)
  : result (list bert_record) :=
  load_loop_bert [] file pad_size.

End LoadDatasetBert.

(** [build_iterator], lines 208-211. *)
Definition build_iterator {record device tensors : Type}
           (_to_tensor : device -> string -> list record -> tensors)
           (dataset : list record) (cfg : config device)
  : result (DatasetIterater.t record device) :=
  DatasetIterater.__init__ dataset (batch_size cfg) (device_of cfg)
                           (model_name cfg).

(** ** Vocabulary of the statements *)

(** The number of records of each batch of a run of the iterator. *)
Definition batch_sizes {record device : Type}
           (bs : list (Rows.tensors record device)) : list Z :=
  map (fun b => Py.len (Rows.rows b)) bs.

(** The ids of a vocabulary are well formed: they are unique and fill
    [0 .. size-1], each reserved marker has one entry, and the markers hold
    the two largest ids, unknown below padding. *)
Definition vocab_ids_wellformed (v : Dict.t Z) : Prop :=
  NoDup (Dict.values v)
  /\ (forall id, In id (Dict.values v) <-> 0 <= id < Py.len v)
  /\ count_occ string_dec (Dict.keys v) UNK = 1%nat
  /\ count_occ string_dec (Dict.keys v) PAD = 1%nat
  /\ Dict.get v UNK = Some (Py.len v - 2)
  /\ Dict.get v PAD = Some (Py.len v - 1).

(** The invariant the specification gives for a built vocabulary: well
    formed ids and at most [max_size + 2] entries. *)
Definition vocab_invariant (max_size : Z) (v : Dict.t Z) : Prop :=
  vocab_ids_wellformed v /\ Py.len v <= max_size + 2.

(** The tokens [build_vocab] counts: those of the text before the first tab
    of every non-blank line. *)
Definition corpus_tokens (tokenizer : string -> list string)
           (file : list string) : list string :=
  flat_map
    (fun line =>
       let line := Str.strip line in
       if String.eqb line "" then []
       else tokenizer (hd "" (Str.split "009"%char line)))
    file.

(** [s.partition(sep)[2]]: what follows the first separator, when there is
    one. *)
Fixpoint after_first (sep : ascii) (s : string) : option string :=
  match s with
  | EmptyString => None
  | String c r => if Ascii.eqb c sep then Some r else after_first sep r
  end.

Definition is_ok {A : Type} (r : result A) : bool :=
  match r with
  | Ok _ => true
  | Raise _ => false
  end.

Definition nonblank (line : string) : bool :=
  negb (String.eqb (Str.strip line) "").

(** A malformed line in the words of the specification: a non-blank line
    that, split at its first tab, has no tab or a label that is no integer. *)
Definition malformed_first_tab (line : string) : bool :=
  nonblank line &&
  match after_first "009"%char (Str.strip line) with
  | None => true
  | Some label => negb (is_ok (Str.int label))
  end.

(** A malformed line as [load_dataset] reads it: a non-blank line that does
    not split at its tabs into exactly two fields, or whose second field is
    no integer. *)
Definition malformed (line : string) : bool :=
  nonblank line &&
  match Str.split "009"%char (Str.strip line) with
  | [_; label] => negb (is_ok (Str.int label))
  | _ => true
  end.

(** The n-gram loop of the FastText family cannot fail: the bucket count is
    not zero and the vocabulary has the unknown marker. *)
Definition ngram_safe {device : Type} (cfg : config device)
           (vocab : Dict.t Z) : Prop :=
  String.eqb (model_name cfg) "FastText" = true ->
  n_gram_vocab cfg <> 0 /\ Dict.get vocab UNK <> None.

(** [seq[i] if i >= 0 else 0]; [None] where [seq[i]] is out of range. *)
Definition prior (seq : list Z) (i : Z) : option Z :=
  if i >=? 0 then nth_error seq (Z.to_nat i) else Some 0.

(** A line of a corpus file: the text, a tab, the label. *)
Definition tabbed (content label : string) : string :=
  (content ++ String "009"%char label)%string.

(** ** Vocabulary of the further statements *)

(** The records of the batches of a run, in the order they were yielded. *)
Definition yielded {record device : Type}
           (bs : list (Rows.tensors record device)) : list record :=
  List.concat (map Rows.rows bs).

(** How often the word [w] is among [tokens]. *)
Definition occurrences (tokens : list string) (w : string) : Z :=
  Z.of_nat (count_occ string_dec tokens w).

(** The step of the counting loop of [build_vocab], line 26. *)
Definition count_word (d : Dict.t Z) (word : string) : Dict.t Z :=
  Dict.set d word (Dict.get_default d word 0 + 1).

(** A dictionary that holds, for every word, how often it is among
    [tokens], and no entry for a word that is not. *)
Definition counted (tokens : list string) (d : Dict.t Z) : Prop :=
  forall w,
    Dict.get d w
    = if occurrences tokens w =? 0 then None
      else Some (occurrences tokens w).

(** [vocab.get(word, vocab.get(UNK))] for a token of the tokenizer. *)
Definition lookup (vocab : Dict.t Z) (word : string) : option Z :=
  match Dict.get vocab word with
  | Some id => Some id
  | None => Dict.get vocab UNK
  end.

(** [build_dataset_bert], lines 113-143, with the tokenizer and the pad
    size of the configuration. *)
Definition build_dataset_bert (tokenize : string -> list string)
           (convert_tokens_to_ids : list string -> list Z) (pad_size : Z)
           (train_file dev_file test_file : list string)
  : result (list bert_record * list bert_record * list bert_record) :=
  train <- load_dataset_bert tokenize convert_tokens_to_ids train_file
                             pad_size ;;
  dev <- load_dataset_bert tokenize convert_tokens_to_ids dev_file pad_size ;;
  test <- load_dataset_bert tokenize convert_tokens_to_ids test_file
                            pad_size ;;
  Ok (train, dev, test).

(** ** [DatasetIterater._to_tensor], lines 158-175 *)

(** [sub in s] *)
Fixpoint str_contains (sub s : string) : bool :=
  String.prefix sub s ||
  match s with
  | EmptyString => false
  | String _ r => str_contains sub r
  end.

Module Tensors.

(** An element of a record tuple: an integer, or a list of integers in
    which an id may be [None]. *)
Inductive field : Type :=
| Int (z : Z)
| Ints (l : list (option Z)).

Definition tuple : Type := list field.

(** The tuples of the generic encoder, lines 100-103. *)
Definition of_record (r : record) : tuple :=
  match r with
  | Rec3 w l n => [Ints w; Int l; Int n]
  | Rec5 w l n bigram trigram =>
      [Ints w; Int l; Int n; Ints (map Some bigram); Ints (map Some trigram)]
  end.

(** The tuples of the sub-word encoder, line 137. *)
Definition of_bert_record (r : bert_record) : tuple :=
  [Ints (map Some (token_ids r)); Int (bert_label r); Int (bert_seq_len r);
   Ints (map Some (mask r))].

Section Runtime.

(** [LongTensor values dev] stands for [torch.LongTensor(values).to(dev)];
    what the tensor runtime does with the values is not modelled. *)
Context {device tensor : Type}.
Variable LongTensor : list field -> device -> tensor.

(** The first component of what [_to_tensor] returns. *)
Inductive features : Type :=
| Plain (x seq_len : tensor)
| NGram (x seq_len bigram trigram : tensor)
| Masked (x seq_len mask : tensor).

(** [[_[i] for _ in datas]] *)
Fixpoint column (datas : list tuple) (i : Z) : result (list field) :=
  match datas with
  | [] => Ok []
  | t :: rest =>
      v <- Py.index t i ;;
      vs <- column rest i ;;
      Ok (v :: vs)
  end.

Definition _to_tensor (dev : device) (model_name : string)
           (datas : list tuple) : result (features * tensor) :=
  x <- column datas 0 ;;
  y <- column datas 1 ;;
  seq_len <- column datas 2 ;;
  if String.eqb model_name "FastText" then
    bigram <- column datas 3 ;;
    trigram <- column datas 4 ;;
    Ok (NGram (LongTensor x dev) (LongTensor seq_len dev)
              (LongTensor bigram dev) (LongTensor trigram dev),
        LongTensor y dev)
  else if str_contains "Bert" model_name || str_contains "bert" model_name
  then
    mask <- column datas 3 ;;
    Ok (Masked (LongTensor x dev) (LongTensor seq_len dev)
               (LongTensor mask dev),
        LongTensor y dev)
  else
    Ok (Plain (LongTensor x dev) (LongTensor seq_len dev), LongTensor y dev).

End Runtime.

Arguments features : clear implicits.

End Tensors.

(** The bigram and trigram fields of a record; none for a 3-tuple. *)
Definition bigram (r : record) : list Z :=
  match r with
  | Rec3 _ _ _ => []
  | Rec5 _ _ _ b _ => b
  end.

Definition trigram (r : record) : list Z :=
  match r with
  | Rec3 _ _ _ => []
  | Rec5 _ _ _ _ t => t
  end.

(** A model name of the sub-word family, line 171. *)
Definition bert_named (model_name : string) : bool :=
  str_contains "Bert" model_name || str_contains "bert" model_name.

(** [a] is in the list at a position before one of [b]. *)
Inductive before {A : Type} : list A -> A -> A -> Prop :=
| before_here (a b : A) (l : list A) : In b l -> before (a :: l) a b
| before_later (x a b : A) (l : list A) : before l a b -> before (x :: l) a b.

(** The word [a] is among the tokens before the first [b]. *)
Definition seen_before (tokens : list string) (a b : string) : Prop :=
  exists t1 t2, tokens = t1 ++ a :: t2 /\ ~ In b t1 /\ a <> b.

(** * Facts about the Python built-ins *)

Lemma len_nonneg {A : Type} (l : list A) : 0 <= Py.len l.
Proof. unfold Py.len. lia. Qed.

Lemma len_app {A : Type} (l1 l2 : list A) :
  Py.len (l1 ++ l2) = Py.len l1 + Py.len l2.
Proof. unfold Py.len. rewrite length_app. lia. Qed.

Lemma len_map {A B : Type} (f : A -> B) (l : list A) :
  Py.len (map f l) = Py.len l.
Proof. unfold Py.len. now rewrite length_map. Qed.

Lemma len_times {A : Type} (x : A) (k : Z) :
  Py.len (Py.times x k) = Z.max 0 k.
Proof. unfold Py.len, Py.times. rewrite repeat_length. lia. Qed.

Lemma len_range (n : Z) : Py.len (Py.range n) = Z.max 0 n.
Proof. unfold Py.len, Py.range. rewrite length_map, length_seq. lia. Qed.

(** The length of [l[lo:hi]] for bounds that are not negative. *)
Lemma len_slice {A : Type} (l : list A) (lo hi : Z) :
  0 <= lo -> 0 <= hi ->
  Py.len (Py.slice l lo hi)
  = Z.max 0 (Z.min hi (Py.len l) - Z.min lo (Py.len l)).
Proof.
  intros Hlo Hhi. unfold Py.slice, Py.clamp.
  destruct (Z.ltb_spec lo 0); [lia|]. destruct (Z.ltb_spec hi 0); [lia|].
  pose proof (len_nonneg l) as Hn.
  unfold Py.len in *. rewrite length_firstn, length_skipn. lia.
Qed.

Lemma slice_prefix {A : Type} (l : list A) (hi : Z) :
  0 <= hi -> Py.slice l 0 hi = firstn (Z.to_nat hi) l.
Proof.
  intros Hhi. unfold Py.slice, Py.clamp. pose proof (len_nonneg l) as Hn.
  destruct (Z.ltb_spec hi 0); [lia|]. simpl (0 <? 0).
  replace (Z.to_nat (Z.min 0 (Py.len l))) with 0%nat by lia.
  replace (Z.min 0 (Py.len l)) with 0 by lia.
  simpl skipn. rewrite Z.sub_0_r. unfold Py.len in *.
  destruct (Z.le_ge_cases hi (Z.of_nat (List.length l))).
  - now rewrite Z.min_l.
  - rewrite Z.min_r by lia. rewrite !firstn_all2; trivial; lia.
Qed.

(** * The batch iterator *)

Section IteratorSteps.

Context {record device tensors : Type}.
Variable _to_tensor : device -> string -> list record -> tensors.

Let state := DatasetIterater.t record device.
Let next := DatasetIterater.__next__ _to_tensor.
Let run := DatasetIterater.iterate _to_tensor.

(** With [0 < batch_size <= len(batches)] the constructor returns, with the
    quotient as [n_batches] and the remainder of the dataset size by
    [n_batches] as the test for [residue]. *)
Lemma init_ok (batches : list record) (b : Z) (d : device) (m : string) :
  0 < b -> b <= Py.len batches ->
  DatasetIterater.__init__ batches b d m
  = Ok (DatasetIterater.mk b batches (Py.len batches / b)
          (negb (Py.len batches mod (Py.len batches / b) =? 0)) 0 d m).
Proof.
  intros Hb Hn. unfold DatasetIterater.__init__, Py.floordiv, Py.mod_.
  destruct (Z.eqb_spec b 0) as [E|_]; [lia|]. cbn [bind].
  assert (Hq : 0 < Py.len batches / b) by (apply Z.div_str_pos; lia).
  destruct (Z.eqb_spec (Py.len batches / b) 0) as [E|_]; [lia|].
  reflexivity.
Qed.

(** Below [n_batches] the cursor yields a slice of [batch_size] bounds. *)
Lemma next_below (batches : list record) (b q i : Z) (res : bool)
      (d : device) (m : string) :
  i < q ->
  next (DatasetIterater.mk b batches q res i d m)
  = (DatasetIterater.mk b batches q res (i + 1) d m,
     DatasetIterater.Yield
       (_to_tensor d m (Py.slice batches (i * b) ((i + 1) * b)))).
Proof.
  intros Hi. unfold next, DatasetIterater.__next__. simpl.
  destruct (Z.eqb_spec i q) as [E|_]; [lia|]. rewrite andb_false_r.
  destruct (Z.gtb_spec i q) as [E|_]; [lia|]. reflexivity.
Qed.

(** At [n_batches] with [residue] set: the rest of the dataset. *)
Lemma next_at_residue (batches : list record) (b q : Z)
      (d : device) (m : string) :
  next (DatasetIterater.mk b batches q true q d m)
  = (DatasetIterater.mk b batches q true (q + 1) d m,
     DatasetIterater.Yield
       (_to_tensor d m (Py.slice batches (q * b) (Py.len batches)))).
Proof.
  unfold next, DatasetIterater.__next__. simpl.
  now rewrite Z.eqb_refl.
Qed.

(** At [n_batches] with [residue] clear: the comparison [index > n_batches]
    fails and one more slice is yielded. *)
Lemma next_at_no_residue (batches : list record) (b q : Z)
      (d : device) (m : string) :
  next (DatasetIterater.mk b batches q false q d m)
  = (DatasetIterater.mk b batches q false (q + 1) d m,
     DatasetIterater.Yield
       (_to_tensor d m (Py.slice batches (q * b) ((q + 1) * b)))).
Proof.
  unfold next, DatasetIterater.__next__. simpl.
  destruct (Z.gtb_spec q q) as [E|_]; [lia|]. reflexivity.
Qed.

(** Past [n_batches]: [StopIteration], and the cursor is back at 0. *)
Lemma next_above (batches : list record) (b q i : Z) (res : bool)
      (d : device) (m : string) :
  q < i ->
  next (DatasetIterater.mk b batches q res i d m)
  = (DatasetIterater.mk b batches q res 0 d m,
     DatasetIterater.StopIteration).
Proof.
  intros Hi. unfold next, DatasetIterater.__next__. simpl.
  destruct (Z.eqb_spec i q) as [E|_]; [lia|]. rewrite andb_false_r.
  destruct (Z.gtb_spec i q) as [_|E]; [|lia]. reflexivity.
Qed.

Lemma iterate_step (fuel : nat) (self : state) :
  run (S fuel) self
  = match next self with
    | (self', DatasetIterater.StopIteration) => Some ([], self')
    | (self', DatasetIterater.Yield b) =>
        match run fuel self' with
        | Some (bs, final) => Some (b :: bs, final)
        | None => None
        end
    end.
Proof. reflexivity. Qed.

End IteratorSteps.

Section IteratorRuns.

Context {record device : Type}.

(** From cursor [i] the loop yields the full batches that are left and then
    one more slice with the remainder, whatever [residue] says, and leaves
    the cursor at 0. *)
Lemma iterate_from (batches : list record) (b : Z) (res : bool)
      (d : device) (m : string) :
  0 < b ->
  forall (k : nat) (i : Z),
    0 <= i <= Py.len batches / b ->
    Z.to_nat (Py.len batches / b - i) = k ->
    exists bs,
      DatasetIterater.iterate Rows._to_tensor (S (S k))
          (DatasetIterater.mk b batches (Py.len batches / b) res i d m)
      = Some (bs, DatasetIterater.mk b batches (Py.len batches / b) res 0 d m)
      /\ batch_sizes bs
         = Py.times b (Py.len batches / b - i) ++ [Py.len batches mod b].
Proof.
  intros Hb.
  pose proof (len_nonneg batches) as Hn.
  pose proof (Z.div_mod (Py.len batches) b ltac:(lia)) as Hdm.
  pose proof (Z.mod_pos_bound (Py.len batches) b Hb) as Hm.
  set (n := Py.len batches) in *. set (q := n / b) in *.
  induction k as [|k IH]; intros i Hi Hk.
  - assert (i = q) by lia. subst i.
    assert (Hlen : forall hi, n <= hi ->
              Py.len (Py.slice batches (q * b) hi) = n mod b).
    { intros hi Hhi. rewrite len_slice by nia. fold n. nia. }
    replace (q - q) with 0 by lia.
    destruct res.
    + eexists. split.
      * rewrite iterate_step, next_at_residue, iterate_step.
        rewrite next_above by lia. reflexivity.
      * unfold batch_sizes. cbn [map Rows.rows Rows._to_tensor].
        rewrite Hlen by (fold n; lia). reflexivity.
    + eexists. split.
      * rewrite iterate_step, next_at_no_residue, iterate_step.
        rewrite next_above by lia. reflexivity.
      * unfold batch_sizes. cbn [map Rows.rows Rows._to_tensor].
        rewrite Hlen by nia. reflexivity.
  - assert (Hlt : i < q) by lia.
    destruct (IH (i + 1)) as [bs [Hrun Hsizes]]; [lia|lia|].
    eexists. split.
    + rewrite iterate_step, next_below by lia. rewrite Hrun. reflexivity.
    + unfold batch_sizes in *. cbn [map Rows.rows Rows._to_tensor].
      rewrite Hsizes. rewrite len_slice by nia. fold n.
      replace (Z.max 0 (Z.min ((i + 1) * b) n - Z.min (i * b) n)) with b
        by nia.
      unfold Py.times.
      replace (Z.to_nat (q - i)) with (S (Z.to_nat (q - (i + 1)))) by lia.
      reflexivity.
Qed.

Lemma sum_app (l1 l2 : list Z) : Py.sum (l1 ++ l2) = Py.sum l1 + Py.sum l2.
Proof. induction l1 as [|x l1 IH]; simpl; [reflexivity|]. rewrite IH. lia. Qed.

Lemma sum_times (x k : Z) : 0 <= k -> Py.sum (Py.times x k) = k * x.
Proof.
  intros Hk. unfold Py.times.
  rewrite <- (Z2Nat.id k) at 2 by assumption.
  induction (Z.to_nat k) as [|j IH]; simpl repeat; simpl Py.sum; [lia|].
  rewrite IH. lia.
Qed.


End IteratorRuns.

(** C1: the specification has every positive batch size give a pass whose
    batches add up to the dataset; with two records and a batch size of
    three no pass takes place at all: the iterator is never built, since
    [__init__] raises [ZeroDivisionError] at
    [len(batches) % self.n_batches] with [n_batches = 0]. *)
Theorem C1_no_pass_when_batch_size_exceeds_dataset :
  build_iterator (@Rows._to_tensor record unit)
    [Rec3 [Some 0; Some 1] 0 2; Rec3 [Some 1; Some 0] 1 2]
    {| model_name := "TextCNN"; pad_size := 2; batch_size := 3;
       n_gram_vocab := 100; device_of := tt |}
  = Raise ZeroDivisionError.
Proof. reflexivity. Qed.

(** C3: the specification has [__len__] count the short batch whenever the
    dataset size is no multiple of the batch size; with twelve records and
    a batch size of five, [residue] is computed from [12 % 2] and [__len__]
    is 2, while [floor(12/5) + 1] is 3 and a pass yields the three batches of
    5, 5 and 2 records. *)
Theorem C3_len_misses_the_short_batch :
  exists it,
    DatasetIterater.__init__ (Py.range 12) 5 tt "TextCNN" = Ok it
    /\ DatasetIterater.__len__ it = 2
    /\ Py.len (Py.range 12) / 5 + 1 = 3
    /\ Py.len (Py.range 12) mod 5 = 2
    /\ option_map (fun r => batch_sizes (fst r))
                  (DatasetIterater.iterate Rows._to_tensor 4 it)
       = Some [5; 5; 2].
Proof. eexists. repeat split. Qed.

(** C4: the specification has a batch size above the dataset size
    special-cased; [__init__] has no such case, [n_batches] is 0 and the
    remainder test [len(batches) % self.n_batches] raises
    [ZeroDivisionError]. *)
Theorem C4_init_raises_when_batch_size_exceeds_dataset :
  forall (record device : Type) (batches : list record) (b : Z)
         (d : device) (m : string),
    Py.len batches < b ->
    DatasetIterater.__init__ batches b d m = Raise ZeroDivisionError.
Proof.
  intros record device batches b d m Hb.
  pose proof (len_nonneg batches) as Hn.
  unfold DatasetIterater.__init__, Py.floordiv, Py.mod_.
  destruct (Z.eqb_spec b 0) as [E|_]; [lia|]. cbn [bind].
  rewrite Z.div_small by lia. reflexivity.
Qed.

Lemma C4_init_raises_witness :
  Py.len [7; 8] < 3
  /\ DatasetIterater.__init__ [7; 8] 3 tt "TextCNN" = Raise ZeroDivisionError.
Proof.
  split; [reflexivity|].
  apply (C4_init_raises_when_batch_size_exceeds_dataset Z unit [7; 8] 3 tt
           "TextCNN").
  reflexivity.
Defined.

(** C5: the specification has the call at cursor = full-batch count signal
    exhaustion when the dataset is a multiple of the batch size; with four
    records and a batch size of two that call yields a batch of no records
    and moves the cursor to 3, and only the call after it raises
    [StopIteration] and resets the cursor. *)
Theorem C5_empty_batch_at_full_batch_count :
  exists it,
    DatasetIterater.__init__ (Py.range 4) 2 tt "TextCNN" = Ok it
    /\ Py.len (Py.range 4) mod 2 = 0
    /\ DatasetIterater.n_batches it = 2
    /\ DatasetIterater.__next__ Rows._to_tensor
         (DatasetIterater.set_index it 2)
       = (DatasetIterater.set_index it 3,
          DatasetIterater.Yield (Rows._to_tensor tt "TextCNN" []))
    /\ DatasetIterater.__next__ Rows._to_tensor
         (DatasetIterater.set_index it 3)
       = (it, DatasetIterater.StopIteration)
    /\ option_map (fun r => batch_sizes (fst r))
                  (DatasetIterater.iterate Rows._to_tensor 4 it)
       = Some [2; 2; 0].
Proof. eexists. repeat split. Qed.

(** * The n-gram hashes *)

Lemma index_map_some (seq : list Z) (i : Z) :
  0 <= i ->
  Py.index (map Some seq) i
  = match nth_error seq (Z.to_nat i) with
    | Some z => Ok (Some z)
    | None => Raise IndexError
    end.
Proof.
  intros Hi. unfold Py.index.
  destruct (Z.ltb_spec i 0) as [E|_]; [lia|].
  destruct (Z.ltb_spec i 0) as [E|_]; [lia|].
  rewrite nth_error_map. now destruct (nth_error seq (Z.to_nat i)).
Qed.

Lemma nth_error_earlier {A : Type} (l : list A) (i j : nat) :
  (j <= i)%nat -> nth_error l i <> None -> nth_error l j <> None.
Proof.
  intros Hji Hi. apply nth_error_Some. apply nth_error_Some in Hi. lia.
Qed.

(** C10: on a sequence of integers, for [pos >= 0] and [buckets > 0],
    [biGramHash] is [(t1 * 14918087) mod buckets] and [triGramHash] is
    [(t2 * 14918087 * 18408749 + t1 * 14918087) mod buckets], where [t1] is
    [seq[pos-1]] if [pos-1 >= 0] else 0 and [t2] is [seq[pos-2]] if
    [pos-2 >= 0] else 0 (an index past the end raises [IndexError], as
    [seq[pos-1]] does); and [biGramHash([5,0,0,0], 0, 100)] is 0. *)
Theorem C10_ngram_hash_formulas :
  forall (seq : list Z) (pos buckets : Z),
    0 <= pos -> 0 < buckets ->
    biGramHash (map Some seq) pos buckets
    = match prior seq (pos - 1) with
      | Some t1 => Ok ((t1 * 14918087) mod buckets)
      | None => Raise IndexError
      end
    /\ triGramHash (map Some seq) pos buckets
       = match prior seq (pos - 1), prior seq (pos - 2) with
         | Some t1, Some t2 =>
             Ok ((t2 * 14918087 * 18408749 + t1 * 14918087) mod buckets)
         | _, _ => Raise IndexError
         end
    /\ biGramHash (map Some [5; 0; 0; 0]) 0 100 = Ok 0.
Proof.
  intros seq pos buckets Hpos Hb.
  assert (Hmod : forall a, Py.mod_ a buckets = Ok (a mod buckets)).
  { intros a. unfold Py.mod_. destruct (Z.eqb_spec buckets 0); [lia|easy]. }
  repeat split.
  - unfold biGramHash, prior.
    destruct (Z.geb_spec (pos - 1) 0) as [H1|H1]; cbn [bind mul].
    + rewrite index_map_some by lia.
      destruct (nth_error seq (Z.to_nat (pos - 1))); cbn [bind mul];
        [apply Hmod|reflexivity].
    + apply Hmod.
  - unfold triGramHash, prior.
    destruct (Z.geb_spec (pos - 1) 0) as [H1|H1];
      destruct (Z.geb_spec (pos - 2) 0) as [H2|H2]; try lia; cbn [bind mul].
    + rewrite !index_map_some by lia.
      destruct (nth_error seq (Z.to_nat (pos - 1))) as [t1|] eqn:E1;
        cbn [bind mul]; [|reflexivity].
      assert (E2 : nth_error seq (Z.to_nat (pos - 2)) <> None).
      { apply (nth_error_earlier seq (Z.to_nat (pos - 1))); [lia|].
        now rewrite E1. }
      destruct (nth_error seq (Z.to_nat (pos - 2))) as [t2|];
        [|contradiction].
      cbn [bind mul]. apply Hmod.
    + rewrite index_map_some by lia.
      destruct (nth_error seq (Z.to_nat (pos - 1))) as [t1|];
        cbn [bind mul]; [apply Hmod|reflexivity].
    + apply Hmod.
Qed.

Lemma C10_ngram_hash_witness :
  0 <= 2 /\ 0 < 100
  /\ biGramHash (map Some [5; 3; 9]) 2 100 = Ok 61
  /\ triGramHash (map Some [5; 3; 9]) 2 100 = Ok 76.
Proof.
  split; [lia|]. split; [lia|].
  destruct (C10_ngram_hash_formulas [5; 3; 9] 2 100 ltac:(lia) ltac:(lia))
    as [Hb [Ht _]].
  split; [exact Hb|exact Ht].
Defined.

(** * The generic line encoder *)

Section EncoderFacts.

Context {device : Type}.
Variable cfg : config device.
Variable vocab : Dict.t Z.
Variable tokenizer_ : string -> list string.

(** What [pad_or_cut] returns for a positive pad size. *)
Lemma pad_or_cut_short (token : list tok) (P : Z) :
  0 < P -> Py.len token < P ->
  pad_or_cut vocab token P
  = (token ++ Py.times (Looked (Dict.get vocab PAD)) (P - Py.len token),
     Py.len token).
Proof.
  intros HP Hlt. unfold pad_or_cut.
  destruct (Z.eqb_spec P 0) as [E|_]; [lia|]. cbn [negb].
  destruct (Z.ltb_spec (Py.len token) P) as [_|E]; [reflexivity|lia].
Qed.

Lemma pad_or_cut_long (token : list tok) (P : Z) :
  0 < P -> P <= Py.len token ->
  pad_or_cut vocab token P = (firstn (Z.to_nat P) token, P).
Proof.
  intros HP Hge. unfold pad_or_cut.
  destruct (Z.eqb_spec P 0) as [E|_]; [lia|]. cbn [negb].
  destruct (Z.ltb_spec (Py.len token) P) as [E|_]; [lia|].
  now rewrite slice_prefix by lia.
Qed.

Lemma pad_or_cut_shape (token : list tok) (P : Z) :
  0 < P ->
  Py.len (fst (pad_or_cut vocab token P)) = P
  /\ snd (pad_or_cut vocab token P) = Z.min (Py.len token) P.
Proof.
  intros HP. destruct (Z.lt_ge_cases (Py.len token) P) as [Hlt|Hge].
  - rewrite pad_or_cut_short by assumption. cbn [fst snd].
    rewrite len_app, len_times. lia.
  - rewrite pad_or_cut_long by assumption. cbn [fst snd].
    unfold Py.len in *. rewrite length_firstn. lia.
Qed.

(** A record comes from a non-blank line of exactly two tab-separated
    fields with an integer label; its ids are the looked-up padded or cut
    tokens and its length is the one [pad_or_cut] recorded. *)
Lemma encode_line_inv (P : Z) (line : string) (r : record) :
  encode_line cfg vocab tokenizer_ P line = Ok (Some r) ->
  exists content lbl,
    nonblank line = true
    /\ Str.split "009"%char (Str.strip line) = [content; lbl]
    /\ Str.int lbl = Ok (label r)
    /\ words_line r
       = map (fun word => vocab_get vocab word (Dict.get vocab UNK))
             (fst (pad_or_cut vocab (map Word (tokenizer_ content)) P))
    /\ seq_len r = snd (pad_or_cut vocab (map Word (tokenizer_ content)) P).
Proof.
  unfold encode_line, nonblank.
  destruct (String.eqb (Str.strip line) "") eqn:Hblank; [discriminate|].
  destruct (Str.split "009"%char (Str.strip line)) as [|content [|lbl [|? ?]]];
    cbn [unpack2 bind]; try discriminate.
  destruct (pad_or_cut vocab (map Word (tokenizer_ content)) P)
    as [token n] eqn:Hpad.
  intros H. exists content, lbl. rewrite Hpad. cbn [fst snd negb].
  destruct (String.eqb (model_name cfg) "FastText").
  - destruct (ngrams _ _ _ _ _) as [[bigram trigram]|e];
      cbn [bind] in H; [|discriminate].
    destruct (Str.int lbl) as [l|e]; cbn [bind] in H; [|discriminate].
    injection H as <-. cbn [label words_line seq_len].
    repeat split; reflexivity.
  - destruct (Str.int lbl) as [l|e]; cbn [bind] in H; [|discriminate].
    injection H as <-. cbn [label words_line seq_len].
    repeat split; reflexivity.
Qed.

(** Every record of the result of [load_loop] was there before the loop or
    is the encoding of one of the lines. *)
Lemma load_loop_inv (P : Z) (file : list string) :
  forall (contents records : list record) (r : record),
    load_loop cfg vocab tokenizer_ contents file P = Ok records ->
    In r records ->
    In r contents
    \/ exists line, In line file
                    /\ encode_line cfg vocab tokenizer_ P line = Ok (Some r).
Proof.
  induction file as [|line rest IH]; intros contents records r Hload Hin.
  - injection Hload as <-. now left.
  - cbn [load_loop] in Hload.
    destruct (encode_line cfg vocab tokenizer_ P line) as [[rec|]|e] eqn:Hline;
      cbn [bind] in Hload; [| |discriminate].
    + destruct (IH _ _ _ Hload Hin) as [Hc|[l [Hl He]]].
      * apply in_app_or in Hc. destruct Hc as [Hc|[<-|[]]]; [now left|].
        right. exists line. split; [now left|assumption].
      * right. exists l. split; [now right|assumption].
    + destruct (IH _ _ _ Hload Hin) as [Hc|[l [Hl He]]]; [now left|].
      right. exists l. split; [now right|assumption].
Qed.

(** Where the token list was extended, the ids are what the second lookup
    of the looked-up padding value returns: the default, [vocab.get(UNK)]. *)
Lemma padding_holds_unknown_id (P : Z) (line content lbl : string)
      (r : record) (i : Z) :
  0 < P ->
  encode_line cfg vocab tokenizer_ P line = Ok (Some r) ->
  Str.split "009"%char (Str.strip line) = [content; lbl] ->
  Py.len (tokenizer_ content) <= i < P ->
  nth_error (words_line r) (Z.to_nat i) = Some (Dict.get vocab UNK).
Proof.
  intros HP Henc Hsplit Hi.
  destruct (encode_line_inv P line r Henc)
    as [content' [lbl' [_ [Hsplit' [_ [Hwords _]]]]]].
  rewrite Hsplit in Hsplit'. injection Hsplit' as <- <-.
  rewrite Hwords, pad_or_cut_short by (rewrite ?len_map; lia).
  cbn [fst]. rewrite map_app. unfold Py.times. rewrite map_repeat.
  cbn [vocab_get]. unfold Py.len in *.
  rewrite nth_error_app2 by (rewrite !length_map; lia).
  apply nth_error_repeat. rewrite !length_map. lia.
Qed.

End EncoderFacts.

(** C2: the specification has the positions past the true length hold the
    id of the padding marker; the token list is extended with [vocab.get(PAD)], an
    id, and the lookup of that id in the vocabulary finds no key, so these
    positions hold the id of the unknown marker: with the vocabulary
    a:0, UNK:1, PAD:2 and pad size 3 the line "a<TAB>0" is encoded as
    [0, 1, 1]. *)
Theorem C2_padding_is_encoded_as_unknown :
  let vocab := [("a", 0); (UNK, 1); (PAD, 2)] in
  let cfg := {| model_name := "TextCNN"; pad_size := 3; batch_size := 1;
                n_gram_vocab := 100; device_of := tt |} in
  Dict.get vocab PAD = Some 2
  /\ load_dataset cfg vocab (tokenizer false) [tabbed "a" "0"] 3
     = Ok [Rec3 [Some 0; Some 1; Some 1] 0 1].
Proof. split; reflexivity. Qed.

(** C7: for a positive pad size [P], every record of the generic encoder has
    exactly [P] ids and a true length of at most [P]; it is the encoding of
    a line of the file, and its true length is the token count of that
    line's text cut down to [P], so [P] whenever the count was [P] or
    more. *)
Theorem C7_generic_record_shape :
  forall (device : Type) (cfg : config device) (vocab : Dict.t Z)
         (tokenizer_ : string -> list string) (file : list string) (P : Z)
         (records : list record) (r : record),
    0 < P ->
    load_dataset cfg vocab tokenizer_ file P = Ok records ->
    In r records ->
    Py.len (words_line r) = P
    /\ seq_len r <= P
    /\ exists line content lbl,
         In line file
         /\ Str.split "009"%char (Str.strip line) = [content; lbl]
         /\ encode_line cfg vocab tokenizer_ P line = Ok (Some r)
         /\ seq_len r = Z.min (Py.len (tokenizer_ content)) P
         /\ (P <= Py.len (tokenizer_ content) -> seq_len r = P).
Proof.
  intros device cfg vocab tokenizer_ file P records r HP Hload Hin.
  destruct (load_loop_inv cfg vocab tokenizer_ P file [] records r Hload Hin)
    as [[]|[line [Hline Henc]]].
  destruct (encode_line_inv cfg vocab tokenizer_ P line r Henc)
    as [content [lbl [_ [Hsplit [_ [Hwords Hlen]]]]]].
  destruct (pad_or_cut_shape vocab (map Word (tokenizer_ content)) P HP)
    as [Hshape Hmin].
  rewrite len_map in Hmin.
  split; [now rewrite Hwords, len_map|].
  split; [lia|].
  exists line, content, lbl. repeat split; try assumption; lia.
Qed.

Lemma C7_generic_record_shape_witness :
  let cfg := {| model_name := "FastText"; pad_size := 3; batch_size := 1;
                n_gram_vocab := 100; device_of := tt |} in
  let vocab := [("a", 0); (UNK, 1); (PAD, 2)] in
  let r := Rec5 [Some 0; Some 1; Some 1] 1 3 [0; 0; 87] [0; 0; 87] in
  0 < 3
  /\ load_dataset cfg vocab (tokenizer false) [tabbed "abcde" "1"] 3 = Ok [r]
  /\ In r [r]
  /\ Py.len (words_line r) = 3
  /\ seq_len r <= 3.
Proof.
  intros cfg vocab r.
  assert (Hload : load_dataset cfg vocab (tokenizer false)
                    [tabbed "abcde" "1"] 3 = Ok [r]) by reflexivity.
  assert (Hin : In r [r]) by (now left).
  destruct (C7_generic_record_shape unit cfg vocab (tokenizer false)
              [tabbed "abcde" "1"] 3 [r] r ltac:(lia) Hload Hin)
    as [Hlen [Hle _]].
  repeat split; assumption.
Defined.

(** * The sub-word line encoder *)

Section BertFacts.

Variable tokenize : string -> list string.
Variable convert_tokens_to_ids : list string -> list Z.

(** The record of a line, field by field, for a pad size that is not 0. *)
Lemma encode_line_bert_inv (P : Z) (line : string) (r : bert_record) :
  P <> 0 ->
  encode_line_bert tokenize convert_tokens_to_ids P line = Ok (Some r) ->
  exists content lbl,
    Str.split "009"%char (Str.strip line) = [content; lbl]
    /\ Str.int lbl = Ok (bert_label r)
    /\ bert_seq_len r = Py.len (CLS :: tokenize content)
    /\ let token := CLS :: tokenize content in
       let ids := convert_tokens_to_ids token in
       if Py.len token <? P then
         mask r = Py.times 1 (Py.len ids) ++ Py.times 0 (P - Py.len token)
         /\ token_ids r = ids ++ Py.times 0 (P - Py.len token)
       else
         mask r = Py.times 1 P /\ token_ids r = Py.slice ids 0 P.
Proof.
  intros HP. unfold encode_line_bert.
  destruct (String.eqb (Str.strip line) ""); [discriminate|].
  destruct (Str.split "009"%char (Str.strip line)) as [|content [|lbl [|? ?]]];
    cbn [unpack2 bind]; try discriminate.
  destruct (Z.eqb_spec P 0) as [E|_]; [contradiction|]. cbn [negb].
  intros H. exists content, lbl. cbn zeta.
  destruct (Py.len (CLS :: tokenize content) <? P);
    destruct (Str.int lbl) as [l|e]; cbn [bind] in H; try discriminate;
    injection H as <-; cbn [bert_label bert_seq_len mask token_ids];
    repeat split; reflexivity.
Qed.

Lemma load_loop_bert_inv (P : Z) (file : list string) :
  forall (contents records : list bert_record) (r : bert_record),
    load_loop_bert tokenize convert_tokens_to_ids contents file P
    = Ok records ->
    In r records ->
    In r contents
    \/ exists line,
         In line file
         /\ encode_line_bert tokenize convert_tokens_to_ids P line
            = Ok (Some r).
Proof.
  induction file as [|line rest IH]; intros contents records r Hload Hin.
  - injection Hload as <-. now left.
  - cbn [load_loop_bert] in Hload.
    destruct (encode_line_bert tokenize convert_tokens_to_ids P line)
      as [[rec|]|e] eqn:Hline; cbn [bind] in Hload; [| |discriminate].
    + destruct (IH _ _ _ Hload Hin) as [Hc|[l [Hl He]]].
      * apply in_app_or in Hc. destruct Hc as [Hc|[<-|[]]]; [now left|].
        right. exists line. split; [now left|assumption].
      * right. exists l. split; [now right|assumption].
    + destruct (IH _ _ _ Hload Hin) as [Hc|[l [Hl He]]]; [now left|].
      right. exists l. split; [now right|assumption].
Qed.

End BertFacts.

(** C8: for a positive pad size [P] and a tokenizer whose
    [convert_tokens_to_ids] returns one id per token, every record of the
    sub-word encoder has a mask and an id sequence of length [P], the mask
    adds up to the true length cut down to [P], and the true length is the
    token count with the classification marker, one more than the tokens
    of the line's text, whatever [P] is. *)
Theorem C8_bert_record_shape :
  forall (tokenize : string -> list string)
         (convert_tokens_to_ids : list string -> list Z)
         (file : list string) (P : Z)
         (records : list bert_record) (r : bert_record),
    (forall ts, Py.len (convert_tokens_to_ids ts) = Py.len ts) ->
    0 < P ->
    load_dataset_bert tokenize convert_tokens_to_ids file P = Ok records ->
    In r records ->
    Py.len (mask r) = P
    /\ Py.len (token_ids r) = P
    /\ Py.sum (mask r) = Z.min (bert_seq_len r) P
    /\ exists line content lbl,
         In line file
         /\ Str.split "009"%char (Str.strip line) = [content; lbl]
         /\ bert_seq_len r = 1 + Py.len (tokenize content).
Proof.
  intros tokenize convert file P records r Hconv HP Hload Hin.
  destruct (load_loop_bert_inv tokenize convert P file [] records r Hload Hin)
    as [[]|[line [Hline Henc]]].
  destruct (encode_line_bert_inv tokenize convert P line r ltac:(lia) Henc)
    as [content [lbl [Hsplit [_ [Hlen Hshape]]]]].
  cbn zeta in Hshape. rewrite Hconv in Hshape.
  assert (Hcount : Py.len (CLS :: tokenize content)
                   = 1 + Py.len (tokenize content)).
  { unfold Py.len. cbn [List.length]. lia. }
  pose proof (len_nonneg (tokenize content)) as Hn.
  destruct (Z.ltb_spec (Py.len (CLS :: tokenize content)) P) as [Hlt|Hge];
    destruct Hshape as [Hmask Hids]; rewrite Hmask, Hids.
  - rewrite !len_app, !len_times, Hconv, sum_app, !sum_times by lia.
    repeat split; try lia.
    exists line, content, lbl. repeat split; try assumption; lia.
  - rewrite len_times, len_slice, Hconv, sum_times by lia.
    repeat split; try lia.
    exists line, content, lbl. repeat split; try assumption; lia.
Qed.

Lemma C8_bert_record_shape_witness :
  let convert := map (fun _ : string => 7) in
  let r := {| token_ids := [7; 7; 7; 7]; bert_label := 2;
              bert_seq_len := 8; mask := [1; 1; 1; 1] |} in
  (forall ts, Py.len (convert ts) = Py.len ts)
  /\ 0 < 4
  /\ load_dataset_bert Str.chars convert [tabbed "abcdefg" "2"] 4 = Ok [r]
  /\ In r [r]
  /\ Py.len (mask r) = 4
  /\ Py.len (token_ids r) = 4
  /\ Py.sum (mask r) = Z.min (bert_seq_len r) 4.
Proof.
  intros convert r.
  assert (Hconv : forall ts, Py.len (convert ts) = Py.len ts)
    by (intros ts; apply len_map).
  assert (Hload : load_dataset_bert Str.chars convert
                    [tabbed "abcdefg" "2"] 4 = Ok [r]) by reflexivity.
  assert (Hin : In r [r]) by (now left).
  destruct (C8_bert_record_shape Str.chars convert [tabbed "abcdefg" "2"] 4
              [r] r Hconv ltac:(lia) Hload Hin) as [Hm [Hi [Hs _]]].
  repeat split; assumption.
Defined.

(** * Dictionaries *)

Section DictFacts.

Context {V : Type}.

(** A new key goes to the end of the dictionary. *)
Lemma set_fresh (d : Dict.t V) (k : string) (v : V) :
  ~ In k (Dict.keys d) -> Dict.set d k v = d ++ [(k, v)].
Proof.
  induction d as [|[k' v'] d IH]; intros Hk; [reflexivity|].
  cbn [Dict.set]. destruct (String.eqb_spec k' k) as [->|Hne].
  - exfalso. apply Hk. now left.
  - rewrite IH; [reflexivity|]. intros Hin. apply Hk. now right.
Qed.

(** An assignment keeps the keys, or adds its key at the end. *)
Lemma keys_set (d : Dict.t V) (k : string) (v : V) :
  Dict.keys (Dict.set d k v)
  = if in_dec string_dec k (Dict.keys d) then Dict.keys d
    else Dict.keys d ++ [k].
Proof.
  unfold Dict.keys.
  induction d as [|[k' v'] d IH]; [reflexivity|].
  cbn [Dict.set]. destruct (String.eqb_spec k' k) as [->|Hne].
  - destruct (in_dec string_dec k (map fst ((k, v') :: d))) as [_|Hn];
      [reflexivity|]. exfalso. apply Hn. now left.
  - cbn [map fst]. rewrite IH.
    destruct (in_dec string_dec k (map fst d)) as [Hin|Hn];
      destruct (in_dec string_dec k (k' :: map fst d)) as [Hin'|Hn'];
      try reflexivity.
    + exfalso. apply Hn'. now right.
    + destruct Hin' as [->|Hin']; contradiction.
Qed.

Lemma set_NoDup (d : Dict.t V) (k : string) (v : V) :
  NoDup (Dict.keys d) -> NoDup (Dict.keys (Dict.set d k v)).
Proof.
  intros Hd. rewrite keys_set.
  destruct (in_dec string_dec k (Dict.keys d)) as [Hin|Hn]; [assumption|].
  apply NoDup_app; [assumption|repeat constructor; intros []|].
  intros x Hx [<-|[]]. contradiction.
Qed.

Lemma set_keys_incl (d : Dict.t V) (k : string) (v : V) (x : string) :
  In x (Dict.keys (Dict.set d k v)) -> x = k \/ In x (Dict.keys d).
Proof.
  rewrite keys_set.
  destruct (in_dec string_dec k (Dict.keys d)) as [Hin|Hn]; [now right|].
  intros Hx. apply in_app_or in Hx. destruct Hx as [Hx|[<-|[]]];
    [now right|now left].
Qed.

(** Assigning items of distinct fresh keys appends them. *)
Lemma update_fresh (items d : Dict.t V) :
  NoDup (Dict.keys d ++ Dict.keys items) ->
  Dict.update d items = d ++ items.
Proof.
  unfold Dict.update. revert d.
  induction items as [|[k v] items IH]; intros d Hnd; cbn [fold_left].
  - now rewrite app_nil_r.
  - cbn [fst snd]. rewrite set_fresh.
    + rewrite IH; [now rewrite <- app_assoc|].
      unfold Dict.keys in *. rewrite map_app, <- app_assoc. exact Hnd.
    + apply NoDup_remove_2 in Hnd. intros Hin. apply Hnd.
      apply in_or_app. now left.
Qed.

(** A key that is not in the first part is looked up in the second. *)
Lemma get_app_fresh (d e : Dict.t V) (k : string) :
  ~ In k (Dict.keys d) -> Dict.get (d ++ e) k = Dict.get e k.
Proof.
  induction d as [|[k' v'] d IH]; intros Hk; [reflexivity|].
  cbn [app Dict.get]. destruct (String.eqb_spec k' k) as [->|Hne].
  - exfalso. apply Hk. now left.
  - apply IH. intros Hin. apply Hk. now right.
Qed.

End DictFacts.

(** * Lists: prefixes, ranges, the sort *)

Lemma firstn_incl {A : Type} (n : nat) (l : list A) (x : A) :
  In x (firstn n l) -> In x l.
Proof.
  revert n. induction l as [|a l IH]; intros [|n]; cbn; try tauto.
  intros [->|Hx]; [now left|right; eauto].
Qed.

Lemma firstn_NoDup {A : Type} (n : nat) (l : list A) :
  NoDup l -> NoDup (firstn n l).
Proof.
  revert n. induction l as [|a l IH]; intros [|n] Hnd; cbn;
    try constructor.
  - inversion Hnd as [|? ? Ha Hl]; subst. intros Hin. apply Ha.
    eapply firstn_incl; eassumption.
  - inversion Hnd; subst. now apply IH.
Qed.

(** [l[:hi]] is a prefix of [l]. *)
Lemma slice_is_prefix {A : Type} (l : list A) (hi : Z) :
  Py.slice l 0 hi = firstn (Z.to_nat (Py.clamp (Py.len l) hi)) l.
Proof.
  unfold Py.slice. pose proof (len_nonneg l) as Hn.
  assert (E : Py.clamp (Py.len l) 0 = 0).
  { unfold Py.clamp. destruct (Z.ltb_spec 0 0); lia. }
  cbv zeta. rewrite E, Z.sub_0_r. reflexivity.
Qed.

Lemma in_range (n id : Z) : In id (Py.range n) <-> 0 <= id < n.
Proof.
  unfold Py.range. rewrite in_map_iff. split.
  - intros [k [<- Hk]]. apply in_seq in Hk. lia.
  - intros Hid. exists (Z.to_nat id). split; [lia|]. apply in_seq. lia.
Qed.

Lemma range_NoDup (n : Z) : NoDup (Py.range n).
Proof.
  unfold Py.range. generalize (seq_NoDup (Z.to_nat n) 0).
  induction (seq 0 (Z.to_nat n)) as [|a l IH]; intros Hnd; cbn;
    [constructor|].
  inversion Hnd as [|? ? Ha Hl]; subst. constructor; [|now apply IH].
  rewrite in_map_iff. intros [k [Hk Hin]].
  apply Nat2Z.inj in Hk. now subst.
Qed.

Lemma range_two_more (n : Z) :
  0 <= n -> Py.range (n + 2) = Py.range n ++ [n; n + 1].
Proof.
  intros Hn. unfold Py.range.
  replace (Z.to_nat (n + 2)) with (Z.to_nat n + 2)%nat by lia.
  rewrite seq_app, map_app. cbn [seq map]. do 3 f_equal; lia.
Qed.

Lemma insert_desc_perm (x : string * Z) (l : list (string * Z)) :
  Permutation (insert_desc x l) (x :: l).
Proof.
  induction l as [|y l IH]; cbn; [reflexivity|].
  destruct (snd y >? snd x); [|reflexivity].
  rewrite IH. apply perm_swap.
Qed.

(** The sort rearranges its items and nothing else. *)
Lemma sorted_desc_perm (l : list (string * Z)) :
  Permutation (sorted_desc l) l.
Proof.
  induction l as [|x l IH]; cbn; [reflexivity|].
  fold (sorted_desc l). rewrite insert_desc_perm. now constructor.
Qed.

Lemma filter_keys_NoDup {A B : Type} (p : A * B -> bool) (l : list (A * B)) :
  NoDup (map fst l) -> NoDup (map fst (filter p l)).
Proof.
  induction l as [|a l IH]; intros Hnd; cbn; [constructor|].
  inversion Hnd as [|? ? Ha Hl]; subst.
  destruct (p a); cbn; [constructor|]; auto.
  intros Hin. apply Ha. rewrite in_map_iff in *.
  destruct Hin as [y [Hy Hin]]. exists y. split; [assumption|].
  now apply filter_In in Hin.
Qed.

Lemma enumerate_keys {A B : Type} (l : list (A * B)) :
  map (fun iw : Z * (A * B) => fst (snd iw)) (enumerate l) = map fst l.
Proof.
  unfold enumerate, Py.range, Py.len. rewrite Nat2Z.id.
  generalize 0%nat. induction l as [|a l IH]; intros s; [reflexivity|].
  cbn. f_equal. apply IH.
Qed.

Lemma enumerate_ids {A : Type} (l : list A) :
  map fst (enumerate l) = Py.range (Py.len l).
Proof.
  unfold enumerate, Py.range, Py.len. rewrite Nat2Z.id.
  generalize 0%nat. induction l as [|a l IH]; intros s; [reflexivity|].
  cbn. f_equal. apply IH.
Qed.

Lemma len_enumerate {A : Type} (l : list A) :
  Py.len (enumerate l) = Py.len l.
Proof.
  unfold enumerate, Py.range, Py.len.
  rewrite length_combine, length_map, length_seq, Nat2Z.id. lia.
Qed.

(** * The vocabulary builder *)

Section VocabFacts.

Variable tokenizer_ : string -> list string.

(** Counting the words of one text keeps the keys distinct and adds no key
    but these words. *)
Lemma count_words_keys (ws : list string) :
  forall d : Dict.t Z,
    NoDup (Dict.keys d) ->
    let d' := fold_left
                (fun d word => Dict.set d word (Dict.get_default d word 0 + 1))
                ws d in
    NoDup (Dict.keys d')
    /\ forall x, In x (Dict.keys d') -> In x (Dict.keys d) \/ In x ws.
Proof.
  induction ws as [|w ws IH]; intros d Hd; cbn [fold_left].
  - split; [assumption|]. intros x Hx. now left.
  - destruct (IH (Dict.set d w (Dict.get_default d w 0 + 1))
                (set_NoDup _ _ _ Hd)) as [Hnd Hincl].
    split; [exact Hnd|]. intros x Hx.
    destruct (Hincl x Hx) as [Hset|Hws]; [|right; now right].
    apply set_keys_incl in Hset. destruct Hset as [->|Hin];
      [right; now left|now left].
Qed.

Lemma count_file_keys (file : list string) :
  forall d : Dict.t Z,
    NoDup (Dict.keys d) ->
    let d' := fold_left (count_line tokenizer_) file d in
    NoDup (Dict.keys d')
    /\ forall x, In x (Dict.keys d') ->
                 In x (Dict.keys d) \/ In x (corpus_tokens tokenizer_ file).
Proof.
  induction file as [|line file IH]; intros d Hd; cbn [fold_left].
  - split; [assumption|]. intros x Hx. now left.
  - assert (Hline :
      NoDup (Dict.keys (count_line tokenizer_ d line))
      /\ forall x, In x (Dict.keys (count_line tokenizer_ d line)) ->
           In x (Dict.keys d)
           \/ In x (if String.eqb (Str.strip line) "" then []
                    else tokenizer_
                           (hd "" (Str.split "009"%char (Str.strip line))))).
    { unfold count_line. destruct (String.eqb (Str.strip line) "").
      - split; [assumption|]. intros x Hx. now left.
      - now apply count_words_keys. }
    destruct Hline as [Hnd1 Hincl1].
    destruct (IH _ Hnd1) as [Hnd Hincl]. split; [exact Hnd|].
    intros x Hx. unfold corpus_tokens. cbn [flat_map].
    destruct (Hincl x Hx) as [H1|H2].
    + destruct (Hincl1 x H1) as [H|H]; [now left|].
      right. apply in_or_app. now left.
    + right. apply in_or_app. now right.
Qed.

(** The kept items of the sorted, filtered counts: distinct words, all of
    them tokens of the corpus, and at most [max_size] when that is not
    negative. *)
Lemma vocab_list_keys (counts : Dict.t Z) (max_size min_freq : Z) :
  NoDup (Dict.keys counts) ->
  let vocab_list :=
    Py.slice
      (sorted_desc (filter (fun item => snd item >=? min_freq) counts))
      0 max_size in
  NoDup (map fst vocab_list)
  /\ (forall x, In x (map fst vocab_list) -> In x (Dict.keys counts))
  /\ (0 <= max_size -> Py.len vocab_list <= max_size).
Proof.
  intros Hnd vocab_list. unfold vocab_list.
  set (kept := filter (fun item : string * Z => snd item >=? min_freq) counts).
  pose proof (sorted_desc_perm kept) as Hperm.
  rewrite slice_is_prefix.
  set (n := Z.to_nat (Py.clamp (Py.len (sorted_desc kept)) max_size)).
  repeat split.
  - rewrite <- firstn_map. apply firstn_NoDup.
    apply (Permutation_NoDup (l := map fst kept)).
    + apply Permutation_map. now symmetry.
    + now apply filter_keys_NoDup.
  - intros x Hx. rewrite <- firstn_map in Hx. apply firstn_incl in Hx.
    apply (Permutation_in _ (Permutation_map fst Hperm)) in Hx.
    unfold Dict.keys. rewrite in_map_iff in *.
    destruct Hx as [y [Hy Hin]]. exists y. split; [assumption|].
    now apply filter_In in Hin.
  - intros Hmax. unfold Py.len at 1. rewrite length_firstn. subst n.
    unfold Py.clamp. destruct (Z.ltb_spec max_size 0); [lia|].
    pose proof (len_nonneg (sorted_desc kept)). unfold Py.len in *. lia.
Qed.

Lemma fold_left_over_map {A B C : Type} (f : A -> B -> A) (g : C -> B)
      (l : list C) :
  forall a, fold_left (fun a x => f a (g x)) l a = fold_left f (map g l) a.
Proof. induction l as [|x l IH]; intros a; cbn; [reflexivity|apply IH]. Qed.

(** The dictionary comprehension over distinct words is the list of the
    words with their ranks. *)
Lemma comprehension_items (vocab_list : list (string * Z)) :
  NoDup (map fst vocab_list) ->
  fold_left (fun (d : Dict.t Z) iw => Dict.set d (fst (snd iw)) (fst iw))
            (enumerate vocab_list) []
  = map (fun iw : Z * (string * Z) => (fst (snd iw), fst iw))
        (enumerate vocab_list).
Proof.
  intros Hnd.
  rewrite (fold_left_over_map
             (fun (d : Dict.t Z) kv => Dict.set d (fst kv) (snd kv))
             (fun iw : Z * (string * Z) => (fst (snd iw), fst iw))).
  change (fold_left _ ?items []) with (Dict.update [] items).
  rewrite update_fresh; [reflexivity|].
  cbn [Dict.keys map app]. unfold Dict.keys. rewrite map_map. cbn [fst].
  now rewrite enumerate_keys.
Qed.

Lemma ranked_words (l : list (string * Z)) (ranks : list Z) :
  map (fun iw : Z * (string * Z) => (fst (snd iw), fst iw)) (combine ranks l)
  = combine (map fst l) ranks.
Proof.
  revert ranks. induction l as [|[w c] l IH]; intros [|i r]; cbn;
    try reflexivity.
  f_equal. apply IH.
Qed.

(** The vocabulary of a corpus without the reserved markers: the ranked
    words, then the unknown marker, then the padding marker. *)
Lemma build_vocab_items (file : list string) (max_size min_freq : Z) :
  ~ In UNK (corpus_tokens tokenizer_ file) ->
  ~ In PAD (corpus_tokens tokenizer_ file) ->
  exists words : list string,
    let k := Py.len words in
    build_vocab file tokenizer_ max_size min_freq
    = combine words (Py.range k) ++ [(UNK, k); (PAD, k + 1)]
    /\ ~ In UNK words /\ ~ In PAD words
    /\ (0 <= max_size -> k <= max_size).
Proof.
  intros Hunk Hpad. unfold build_vocab.
  destruct (count_file_keys file [] (NoDup_nil _)) as [Hnd Hincl].
  set (counts := fold_left (count_line tokenizer_) file []) in *.
  destruct (vocab_list_keys counts max_size min_freq Hnd)
    as [Hnd' [Hincl' Hbound]].
  set (vocab_list := Py.slice _ 0 max_size) in *.
  assert (Hfresh : forall w, ~ In w (corpus_tokens tokenizer_ file) ->
                             ~ In w (map fst vocab_list)).
  { intros w Hw Hin. apply Hw. destruct (Hincl w (Hincl' w Hin)) as [[]|H].
    exact H. }
  rewrite comprehension_items by assumption.
  set (d := map (fun iw : Z * (string * Z) => (fst (snd iw), fst iw))
                (enumerate vocab_list)).
  assert (Hkeys : Dict.keys d = map fst vocab_list).
  { unfold d, Dict.keys. rewrite map_map. cbn [fst]. apply enumerate_keys. }
  assert (Hlen : Py.len d = Py.len vocab_list).
  { unfold d. now rewrite len_map, len_enumerate. }
  exists (map fst vocab_list). cbv zeta. rewrite len_map.
  repeat split; auto.
  rewrite update_fresh.
  - rewrite Hlen. f_equal. apply ranked_words.
  - rewrite Hkeys. cbn [Dict.keys map fst]. apply NoDup_app.
    + assumption.
    + repeat constructor; [|intros []]. intros [E|[]]. discriminate E.
    + intros x Hx [<-|[<-|[]]].
      * exact (Hfresh UNK Hunk Hx).
      * exact (Hfresh PAD Hpad Hx).
Qed.

End VocabFacts.

Lemma combine_fst {A B : Type} (l : list A) (l' : list B) :
  List.length l = List.length l' -> map fst (combine l l') = l.
Proof.
  revert l'. induction l as [|a l IH]; intros [|b l'] H; cbn in *;
    try reflexivity; try discriminate.
  f_equal. apply IH. now injection H.
Qed.

Lemma combine_snd {A B : Type} (l : list A) (l' : list B) :
  List.length l = List.length l' -> map snd (combine l l') = l'.
Proof.
  revert l'. induction l as [|a l IH]; intros [|b l'] H; cbn in *;
    try reflexivity; try discriminate.
  f_equal. apply IH. now injection H.
Qed.

(** The ranked words followed by the two markers form a well-formed
    vocabulary. *)
Lemma ranked_words_wellformed (words : list string) :
  ~ In UNK words -> ~ In PAD words ->
  vocab_ids_wellformed
    (combine words (Py.range (Py.len words))
       ++ [(UNK, Py.len words); (PAD, Py.len words + 1)]).
Proof.
  intros Hunk Hpad.
  pose proof (len_nonneg words) as Hk. set (k := Py.len words) in *.
  assert (Hlens : List.length words = List.length (Py.range k)).
  { pose proof (len_range k) as H. unfold Py.len in *. lia. }
  set (v := combine words (Py.range k) ++ [(UNK, k); (PAD, k + 1)]).
  assert (Hvalues : Dict.values v = Py.range (k + 2)).
  { unfold v, Dict.values. rewrite map_app, combine_snd by assumption.
    now rewrite range_two_more. }
  assert (Hkeys : Dict.keys v = words ++ [UNK; PAD]).
  { unfold v, Dict.keys. now rewrite map_app, combine_fst. }
  assert (Hlen : Py.len v = k + 2).
  { unfold v. rewrite len_app. unfold Py.len at 1.
    rewrite length_combine, <- Hlens, Nat.min_id. fold (Py.len words).
    fold k. reflexivity. }
  assert (Hfresh : forall key, ~ In key words ->
            Dict.get v key = Dict.get [(UNK, k); (PAD, k + 1)] key).
  { intros key Hkey. unfold v. apply get_app_fresh.
    unfold Dict.keys. now rewrite combine_fst. }
  unfold vocab_ids_wellformed. rewrite Hvalues, Hkeys, Hlen.
  split; [apply range_NoDup|]. split; [intros id; apply in_range|].
  repeat split.
  - rewrite count_occ_app.
    rewrite (proj1 (count_occ_not_In string_dec words UNK) Hunk).
    reflexivity.
  - rewrite count_occ_app.
    rewrite (proj1 (count_occ_not_In string_dec words PAD) Hpad).
    reflexivity.
  - rewrite Hfresh by assumption. cbn. f_equal. lia.
  - rewrite Hfresh by assumption. cbn. f_equal. lia.
Qed.

(** C6, as the code has it: for every corpus and tokenizer that give no
    token equal to the unknown or the padding marker, and every [max_size]
    and [min_freq], [build_vocab] returns a mapping with unique ids that
    fill [0 .. size-1], one entry for each marker, unknown = size-2 and
    padding = size-1; and when [max_size] is not negative the size is at
    most [max_size + 2]. *)
Theorem C6_build_vocab_invariant :
  forall (file : list string) (tokenizer_ : string -> list string)
         (max_size min_freq : Z),
    ~ In UNK (corpus_tokens tokenizer_ file) ->
    ~ In PAD (corpus_tokens tokenizer_ file) ->
    vocab_ids_wellformed (build_vocab file tokenizer_ max_size min_freq)
    /\ (0 <= max_size ->
        vocab_invariant max_size
                        (build_vocab file tokenizer_ max_size min_freq)).
Proof.
  intros file tokenizer_ max_size min_freq Hunk Hpad.
  destruct (build_vocab_items tokenizer_ file max_size min_freq Hunk Hpad)
    as [words [Hitems [Hu [Hp Hbound]]]].
  cbv zeta in Hitems, Hbound. rewrite Hitems.
  pose proof (ranked_words_wellformed words Hu Hp) as Hwf.
  split; [exact Hwf|]. intros Hmax. split; [exact Hwf|].
  rewrite len_app. unfold Py.len at 1.
  rewrite length_combine. fold (Py.len words).
  pose proof (len_range (Py.len words)) as Hr. pose proof (len_nonneg words).
  unfold Py.len in *. cbn [List.length]. specialize (Hbound Hmax). lia.
Qed.

Lemma C6_build_vocab_invariant_witness :
  let file := [tabbed "cat sat" "0"; ""; tabbed "the cat sat on the mat" "1"] in
  ~ In UNK (corpus_tokens (tokenizer true) file)
  /\ ~ In PAD (corpus_tokens (tokenizer true) file)
  /\ build_vocab file (tokenizer true) 4 1
     = [("cat", 0); ("sat", 1); ("the", 2); ("on", 3); (UNK, 4); (PAD, 5)]
  /\ vocab_invariant 4 (build_vocab file (tokenizer true) 4 1).
Proof.
  intros file.
  assert (Hunk : ~ In UNK (corpus_tokens (tokenizer true) file)).
  { vm_compute. intros H.
    repeat (destruct H as [H|H]; [discriminate H|]). exact H. }
  assert (Hpad : ~ In PAD (corpus_tokens (tokenizer true) file)).
  { vm_compute. intros H.
    repeat (destruct H as [H|H]; [discriminate H|]). exact H. }
  split; [exact Hunk|]. split; [exact Hpad|]. split; [reflexivity|].
  apply (C6_build_vocab_invariant file (tokenizer true) 4 1 Hunk Hpad).
  lia.
Defined.

(** C6, as stated, fails: a corpus whose text holds the padding marker as a
    word gets a vocabulary of three entries with the ids 3, 1 and 2; and
    with [max_size = -1] a corpus of three words gets four entries. *)
Lemma C6_build_vocab_counterexample :
  ~ vocab_invariant 10
      (build_vocab [tabbed "<PAD> a" "0"] (tokenizer true) 10 1)
  /\ ~ vocab_invariant (-1)
        (build_vocab [tabbed "a b c" "0"] (tokenizer true) (-1) 1).
Proof.
  split.
  - intros [[_ [_ [_ [_ [_ Hpad]]]]] _]. vm_compute in Hpad. discriminate Hpad.
  - intros [_ Hsize]. vm_compute in Hsize. apply Hsize. reflexivity.
Qed.

(** * Errors of the generic line encoder *)

Lemma index_in_range {A : Type} (l : list A) (i : Z) :
  0 <= i < Py.len l -> exists a, Py.index l i = Ok a /\ In a l.
Proof.
  intros Hi. unfold Py.index.
  destruct (Z.ltb_spec i 0) as [E|_]; [lia|].
  destruct (Z.ltb_spec i 0) as [E|_]; [lia|].
  destruct (nth_error l (Z.to_nat i)) as [a|] eqn:Hnth.
  - exists a. split; [reflexivity|]. eapply nth_error_In; eassumption.
  - apply nth_error_None in Hnth. unfold Py.len in Hi. lia.
Qed.

(** [int] raises nothing but [ValueError]. *)
Lemma int_raises_value_error (s : string) (e : exn) :
  Str.int s = Raise e -> e = ValueError.
Proof.
  unfold Str.int.
  destruct (match Str.int_rstrip (Str.int_lstrip s) with
            | EmptyString => _
            | String _ _ => _
            end) as [sign body].
  destruct (Str.int_digits body 0 false); congruence.
Qed.

Section HashesTotal.

Variable sequence : list (option Z).
Variable buckets : Z.
Hypothesis buckets_nonzero : buckets <> 0.
Hypothesis all_ids : forall v, In v sequence -> v <> None.

(** The value read before position [t], when the position is within the
    sequence or just past it. *)
Lemma prior_read (t k : Z) :
  0 < k -> 0 <= t <= Py.len sequence ->
  exists z,
    (if t - k >=? 0 then Py.index sequence (t - k) else Ok (Some 0))
    = Ok (Some z).
Proof.
  intros Hk Ht. destruct (Z.geb_spec (t - k) 0) as [Hge|Hlt].
  - destruct (index_in_range sequence (t - k)) as [[z|] [Hidx Hin]];
      [lia| |].
    + now exists z.
    + now apply all_ids in Hin.
  - now exists 0.
Qed.

Lemma biGramHash_total (t : Z) :
  0 <= t <= Py.len sequence -> exists h, biGramHash sequence t buckets = Ok h.
Proof.
  intros Ht. unfold biGramHash, Py.mod_.
  destruct (prior_read t 1 ltac:(lia) Ht) as [z1 ->]. cbn [bind mul].
  destruct (Z.eqb_spec buckets 0); [contradiction|]. eauto.
Qed.

Lemma triGramHash_total (t : Z) :
  0 <= t <= Py.len sequence -> exists h, triGramHash sequence t buckets = Ok h.
Proof.
  intros Ht. unfold triGramHash, Py.mod_.
  destruct (prior_read t 1 ltac:(lia) Ht) as [z1 ->].
  destruct (prior_read t 2 ltac:(lia) Ht) as [z2 ->]. cbn [bind mul].
  destruct (Z.eqb_spec buckets 0); [contradiction|]. eauto.
Qed.

Lemma ngrams_total (positions : list Z) :
  (forall i, In i positions -> 0 <= i <= Py.len sequence) ->
  forall bigram trigram,
  exists grams, ngrams sequence buckets positions bigram trigram = Ok grams.
Proof.
  induction positions as [|i rest IH]; intros Hpos bigram trigram;
    cbn [ngrams]; [eauto|].
  destruct (biGramHash_total i) as [b ->]; [apply Hpos; now left|].
  destruct (triGramHash_total i) as [t ->]; [apply Hpos; now left|].
  cbn [bind]. apply IH. intros j Hj. apply Hpos. now right.
Qed.

End HashesTotal.

Section EncoderErrors.

Context {device : Type}.
Variable cfg : config device.
Variable vocab : Dict.t Z.
Variable tokenizer_ : string -> list string.
Hypothesis safe : ngram_safe cfg vocab.

(** The three cases of a line: blank, malformed, encoded. *)
Lemma encode_line_cases (P : Z) (line : string) :
  (nonblank line = false
   /\ encode_line cfg vocab tokenizer_ P line = Ok None)
  \/ (malformed line = true
      /\ encode_line cfg vocab tokenizer_ P line = Raise ValueError)
  \/ (nonblank line = true /\ malformed line = false
      /\ exists r, encode_line cfg vocab tokenizer_ P line = Ok (Some r)).
Proof.
  unfold encode_line, malformed, nonblank.
  destruct (String.eqb (Str.strip line) ""); cbn [negb andb];
    [left; now split|right].
  destruct (Str.split "009"%char (Str.strip line)) as [|content [|lbl [|? ?]]];
    cbn [unpack2 bind]; try (left; now split).
  destruct (pad_or_cut vocab (map Word (tokenizer_ content)) P)
    as [token n] eqn:Hpad.
  destruct (String.eqb (model_name cfg) "FastText") eqn:Hmodel.
  - destruct (safe Hmodel) as [Hbuckets Hunk].
    destruct (ngrams_total
                (map (fun word => vocab_get vocab word (Dict.get vocab UNK))
                     token)
                (n_gram_vocab cfg) Hbuckets) with (positions := Py.range P)
                (bigram := @nil Z) (trigram := @nil Z) as [[bigram trigram] ->].
    + intros v Hv. apply in_map_iff in Hv. destruct Hv as [w [<- _]].
      destruct w as [s|v']; cbn [vocab_get]; [|assumption].
      destruct (Dict.get vocab s); [discriminate|assumption].
    + intros i Hi. apply in_range in Hi. rewrite len_map.
      destruct (pad_or_cut_shape vocab (map Word (tokenizer_ content)) P)
        as [Hlen _]; [lia|].
      rewrite Hpad in Hlen. cbn [fst] in Hlen. lia.
    + cbn [bind]. destruct (Str.int lbl) as [l|e] eqn:Hint;
        cbn [bind is_ok negb].
      * right. repeat split. eauto.
      * left. split; [reflexivity|]. f_equal.
        eapply int_raises_value_error; eassumption.
  - destruct (Str.int lbl) as [l|e] eqn:Hint; cbn [bind is_ok negb].
    + right. repeat split. eauto.
    + left. split; [reflexivity|]. f_equal.
      eapply int_raises_value_error; eassumption.
Qed.

End EncoderErrors.

Section LoaderErrors.

Context {device : Type}.
Variable cfg : config device.
Variable vocab : Dict.t Z.
Variable tokenizer_ : string -> list string.
Hypothesis safe : ngram_safe cfg vocab.

(** The loop stops with [ValueError] at the first malformed line, and
    otherwise appends one record for every non-blank line. *)
Lemma load_loop_outcome (P : Z) (file : list string) :
  forall contents : list record,
    (existsb malformed file = true
     /\ load_loop cfg vocab tokenizer_ contents file P = Raise ValueError)
    \/ (existsb malformed file = false
        /\ exists rs,
             load_loop cfg vocab tokenizer_ contents file P
             = Ok (contents ++ rs)
             /\ Py.len rs = Py.len (filter nonblank file)).
Proof.
  induction file as [|line rest IH]; intros contents.
  - right. split; [reflexivity|]. exists []. now rewrite app_nil_r.
  - cbn [load_loop existsb filter].
    destruct (encode_line_cases cfg vocab tokenizer_ safe P line)
      as [[Hblank ->]|[[Hbad ->]|[Hnb [Hgood [r ->]]]]]; cbn [bind].
    + assert (Hgood : malformed line = false).
      { unfold malformed. now rewrite Hblank. }
      rewrite Hgood, Hblank. cbn [orb]. apply IH.
    + rewrite Hbad. left. now split.
    + rewrite Hgood, Hnb. cbn [orb].
      destruct (IH (contents ++ [r])) as [[Hex ->]|[Hex [rs [-> Hlen]]]].
      * left. now split.
      * right. split; [assumption|]. exists (r :: rs).
        split; [now rewrite <- app_assoc|].
        unfold Py.len in *. cbn [List.length]. lia.
Qed.

End LoaderErrors.




(** * More on the batch iterator *)

(** [l[lo:hi]] for [0 <= lo <= hi]: a prefix of what is left after [lo]. *)
Lemma slice_between {A : Type} (l : list A) (lo hi : Z) :
  0 <= lo <= hi ->
  Py.slice l lo hi
  = firstn (Z.to_nat (hi - lo)) (skipn (Z.to_nat lo) l).
Proof.
  intros H. unfold Py.slice, Py.clamp. pose proof (len_nonneg l) as Hn.
  destruct (Z.ltb_spec lo 0); [lia|]. destruct (Z.ltb_spec hi 0); [lia|].
  destruct (Z.le_gt_cases lo (Py.len l)) as [Hlo|Hlo].
  - rewrite (Z.min_l lo) by lia.
    destruct (Z.le_gt_cases hi (Py.len l)) as [Hhi|Hhi].
    + now rewrite Z.min_l by lia.
    + rewrite Z.min_r by lia.
      rewrite !firstn_all2; trivial; rewrite length_skipn;
        unfold Py.len in *; lia.
  - rewrite !Z.min_r by lia. rewrite !skipn_all2 by (unfold Py.len in *; lia).
    now rewrite !firstn_nil.
Qed.

Lemma slice_to_end {A : Type} (l : list A) (lo hi : Z) :
  0 <= lo -> Py.len l <= hi -> lo <= hi ->
  Py.slice l lo hi = skipn (Z.to_nat lo) l.
Proof.
  intros Hlo Hhi Hle. rewrite slice_between by lia.
  apply firstn_all2. rewrite length_skipn. unfold Py.len in *. lia.
Qed.

(** A slice holds elements of the list only. *)
Lemma slice_incl {A : Type} (l : list A) (lo hi : Z) (x : A) :
  In x (Py.slice l lo hi) -> In x l.
Proof.
  unfold Py.slice. intros H. apply firstn_incl in H.
  revert H. generalize (Z.to_nat (Py.clamp (Py.len l) lo)).
  intros n. revert l. induction n as [|n IH]; intros [|a l]; cbn; auto.
Qed.

Section IteratorPasses.

Context {record device : Type}.

(** From cursor [i] a pass yields, in order, the records from position
    [i * batch_size] on, and leaves the cursor at 0. *)
Lemma iterate_from_rows (batches : list record) (b : Z) (res : bool)
      (d : device) (m : string) :
  0 < b ->
  forall (k : nat) (i : Z),
    0 <= i <= Py.len batches / b ->
    Z.to_nat (Py.len batches / b - i) = k ->
    exists bs,
      DatasetIterater.iterate Rows._to_tensor (S (S k))
          (DatasetIterater.mk b batches (Py.len batches / b) res i d m)
      = Some (bs, DatasetIterater.mk b batches (Py.len batches / b) res 0 d m)
      /\ yielded bs = skipn (Z.to_nat (i * b)) batches
      /\ Py.len bs = Py.len batches / b - i + 1.
Proof.
  intros Hb.
  pose proof (len_nonneg batches) as Hn.
  pose proof (Z.div_mod (Py.len batches) b ltac:(lia)) as Hdm.
  pose proof (Z.mod_pos_bound (Py.len batches) b Hb) as Hm.
  set (n := Py.len batches) in *. set (q := n / b) in *.
  induction k as [|k IH]; intros i Hi Hk.
  - assert (i = q) by lia. subst i.
    assert (Hrows : forall hi, n <= hi ->
              Py.slice batches (q * b) hi = skipn (Z.to_nat (q * b)) batches).
    { intros hi Hhi. apply slice_to_end; fold n; nia. }
    destruct res.
    + eexists. split; [|split].
      * rewrite iterate_step, next_at_residue, iterate_step.
        rewrite next_above by lia. reflexivity.
      * unfold yielded. cbn [map List.concat Rows.rows Rows._to_tensor].
        rewrite app_nil_r. apply Hrows. fold n. lia.
      * unfold Py.len. cbn [List.length]. lia.
    + eexists. split; [|split].
      * rewrite iterate_step, next_at_no_residue, iterate_step.
        rewrite next_above by lia. reflexivity.
      * unfold yielded. cbn [map List.concat Rows.rows Rows._to_tensor].
        rewrite app_nil_r. apply Hrows. nia.
      * unfold Py.len. cbn [List.length]. lia.
  - assert (Hlt : i < q) by lia.
    destruct (IH (i + 1)) as [bs [Hrun [Hrows Hcount]]]; [lia|lia|].
    eexists. split; [|split].
    + rewrite iterate_step, next_below by lia. rewrite Hrun. reflexivity.
    + unfold yielded in *. cbn [map List.concat Rows.rows Rows._to_tensor].
      rewrite Hrows, slice_between by nia.
      replace (Z.to_nat ((i + 1) * b))
        with (Z.to_nat ((i + 1) * b - i * b) + Z.to_nat (i * b))%nat by nia.
      rewrite <- skipn_skipn. apply firstn_skipn.
    + unfold Py.len in *. cbn [List.length]. lia.
Qed.

End IteratorPasses.








(** [__init__] returns exactly when the batch size is positive and at most
    the dataset size, or negative with a dataset that is not empty; in
    every other case (batch size 0, an empty dataset, a batch size above
    the dataset size) it raises [ZeroDivisionError].  What it returns has
    the cursor at 0 and the floor quotient as [n_batches]. *)
Theorem init_returns_or_divides_by_zero :
  forall (record device : Type) (batches : list record) (b : Z)
         (d : device) (m : string),
    ((0 < b <= Py.len batches \/ (b < 0 /\ 0 < Py.len batches)) ->
     exists it,
       DatasetIterater.__init__ batches b d m = Ok it
       /\ DatasetIterater.index it = 0
       /\ DatasetIterater.n_batches it = Py.len batches / b
       /\ DatasetIterater.batches it = batches
       /\ DatasetIterater.batch_size it = b)
    /\ (~ (0 < b <= Py.len batches \/ (b < 0 /\ 0 < Py.len batches)) ->
        DatasetIterater.__init__ batches b d m = Raise ZeroDivisionError).
Proof.
  intros record device batches b d m.
  pose proof (len_nonneg batches) as Hn.
  unfold DatasetIterater.__init__, Py.floordiv, Py.mod_. split.
  - intros Hcase. destruct (Z.eqb_spec b 0) as [E|_]; [lia|]. cbn [bind].
    assert (Hq : Py.len batches / b <> 0).
    { destruct Hcase as [Hpos|[Hneg Hlen]].
      - pose proof (Z.div_str_pos (Py.len batches) b Hpos). lia.
      - pose proof (Z.div_mod (Py.len batches) b ltac:(lia)) as Hdm.
        pose proof (Z.mod_neg_bound (Py.len batches) b Hneg) as Hr.
        intros E. rewrite E in Hdm. lia. }
    destruct (Z.eqb_spec (Py.len batches / b) 0) as [E|_]; [contradiction|].
    eexists. cbn [bind]. repeat split.
  - intros Hcase. destruct (Z.eqb_spec b 0) as [E|Hb]; [reflexivity|].
    cbn [bind].
    assert (Hq : Py.len batches / b = 0).
    { destruct (Z.lt_trichotomy b 0) as [Hneg|[H0|Hpos]]; [|lia|].
      - assert (Py.len batches = 0) by lia. replace (Py.len batches) with 0.
        apply Z.div_0_l. lia.
      - apply Z.div_small. lia. }
    rewrite Hq. reflexivity.
Qed.

Lemma init_returns_or_divides_by_zero_witness :
  (exists it,
     DatasetIterater.__init__ [10; 11; 12] 2 tt "TextCNN" = Ok it
     /\ DatasetIterater.index it = 0
     /\ DatasetIterater.n_batches it = 1
     /\ DatasetIterater.batches it = [10; 11; 12]
     /\ DatasetIterater.batch_size it = 2)
  /\ DatasetIterater.__init__ (@nil Z) 2 tt "TextCNN"
     = Raise ZeroDivisionError.
Proof.
  split.
  - apply (init_returns_or_divides_by_zero Z unit [10; 11; 12] 2 tt "TextCNN").
    left. unfold Py.len. cbn [List.length]. lia.
  - apply (init_returns_or_divides_by_zero Z unit [] 2 tt "TextCNN").
    unfold Py.len. cbn [List.length]. lia.
Defined.

(** A negative batch size is accepted for a dataset that is not empty, and
    the iterator it gives yields no batch at all: the first call of
    [__next__] raises [StopIteration]. *)
Theorem negative_batch_size_yields_nothing :
  forall (record device : Type) (batches : list record) (b : Z)
         (d : device) (m : string),
    b < 0 -> 0 < Py.len batches ->
    exists it,
      DatasetIterater.__init__ batches b d m = Ok it
      /\ DatasetIterater.__next__ Rows._to_tensor it
         = (it, DatasetIterater.StopIteration)
      /\ DatasetIterater.iterate Rows._to_tensor 1 it = Some ([], it).
Proof.
  intros record device batches b d m Hb Hn.
  pose proof (Z.div_mod (Py.len batches) b ltac:(lia)) as Hdm.
  pose proof (Z.mod_neg_bound (Py.len batches) b Hb) as Hr.
  assert (Hq : Py.len batches / b < 0) by nia.
  unfold DatasetIterater.__init__, Py.floordiv, Py.mod_.
  destruct (Z.eqb_spec b 0) as [E|_]; [lia|]. cbn [bind].
  destruct (Z.eqb_spec (Py.len batches / b) 0) as [E|_]; [lia|].
  cbn [bind]. eexists. split; [reflexivity|].
  assert (Hnext : forall res,
            DatasetIterater.__next__ (@Rows._to_tensor record device)
              (DatasetIterater.mk b batches (Py.len batches / b) res 0 d m)
            = (DatasetIterater.mk b batches (Py.len batches / b) res 0 d m,
               DatasetIterater.StopIteration)).
  { intros res. apply (next_above (@Rows._to_tensor record device)). lia. }
  split; [apply Hnext|]. rewrite iterate_step, Hnext. reflexivity.
Qed.

Lemma negative_batch_size_yields_nothing_witness :
  -2 < 0 /\ 0 < Py.len [10; 11; 12; 13; 14]
  /\ exists it,
       DatasetIterater.__init__ [10; 11; 12; 13; 14] (-2) tt "TextCNN" = Ok it
       /\ DatasetIterater.__next__ Rows._to_tensor it
          = (it, DatasetIterater.StopIteration)
       /\ DatasetIterater.iterate Rows._to_tensor 1 it = Some ([], it).
Proof.
  split; [lia|]. split; [reflexivity|].
  apply (negative_batch_size_yields_nothing Z unit [10; 11; 12; 13; 14] (-2)
           tt "TextCNN"); [lia|reflexivity].
Defined.

(** * The tokenizers *)

Lemma split_nonempty (sep : ascii) (s : string) : Str.split sep s <> [].
Proof.
  destruct s as [|c r]; cbn; [discriminate|].
  destruct (Ascii.eqb c sep); [discriminate|].
  destruct (Str.split sep r); discriminate.
Qed.

Lemma concat_cons_char (sep : string) (c : ascii) (p : string)
      (ps : list string) :
  String.concat sep (String c p :: ps) = String c (String.concat sep (p :: ps)).
Proof. destruct ps; reflexivity. Qed.

(** Joining the parts of a split with the separator gives the string
    back. *)
Lemma join_split (sep : ascii) (s : string) :
  String.concat (String sep EmptyString) (Str.split sep s) = s.
Proof.
  induction s as [|c r IH]; [reflexivity|].
  cbn [Str.split]. pose proof (split_nonempty sep r) as Hne.
  destruct (Ascii.eqb_spec c sep) as [->|Hc];
    destruct (Str.split sep r) as [|p ps]; try contradiction.
  - change (String.concat (String sep "") ("" :: p :: ps))
      with (String sep (String.concat (String sep "") (p :: ps))).
    now rewrite IH.
  - rewrite concat_cons_char. now rewrite IH.
Qed.

Lemma join_chars (s : string) : String.concat "" (Str.chars s) = s.
Proof.
  induction s as [|c r IH]; [reflexivity|].
  cbn [Str.chars]. destruct (Str.chars r) as [|p ps] eqn:E.
  - cbn in *. now rewrite <- IH.
  - change (String.concat "" (String c "" :: p :: ps))
      with (String c (String.concat "" (p :: ps))).
    now rewrite IH.
Qed.

(** No part of a split holds the separator. *)
Lemma split_parts_free (sep : ascii) (s part : string) :
  In part (Str.split sep s) ->
  ~ In sep (list_ascii_of_string part).
Proof.
  revert part. induction s as [|c r IH]; intros part; cbn [Str.split].
  - intros [<-|[]] [].
  - pose proof (split_nonempty sep r) as Hne.
    destruct (Ascii.eqb_spec c sep) as [->|Hc].
    + intros [<-|Hin]; [intros []|now apply IH].
    + destruct (Str.split sep r) as [|p ps]; [contradiction|].
      intros [<-|Hin].
      * cbn. intros [E|Hin]; [congruence|]. apply (IH p); [now left|exact Hin].
      * apply IH. now right.
Qed.

Lemma split_count (sep : ascii) (s : string) :
  List.length (Str.split sep s)
  = S (count_occ ascii_dec (list_ascii_of_string s) sep).
Proof.
  induction s as [|c r IH]; [reflexivity|].
  cbn [Str.split list_ascii_of_string].
  pose proof (split_nonempty sep r) as Hne.
  destruct (Ascii.eqb_spec c sep) as [->|Hc].
  - rewrite count_occ_cons_eq by reflexivity. cbn [List.length]. now rewrite IH.
  - rewrite count_occ_cons_neq by assumption.
    destruct (Str.split sep r) as [|p ps]; [contradiction|]. exact IH.
Qed.

(** Both tokenizers keep the whole text: the word-level tokens joined by
    single spaces, and the character-level tokens put side by side, are the
    text again. *)
Theorem tokenizer_keeps_the_text :
  forall (ues_word : bool) (x : string),
    String.concat (if ues_word then " " else "") (tokenizer ues_word x) = x.
Proof.
  intros [|] x; unfold tokenizer; [apply join_split|apply join_chars].
Qed.


(** * More on dictionaries and the vocabulary *)

Section DictLookups.

Context {V : Type}.

Lemma get_set_same (d : Dict.t V) (k : string) (v : V) :
  Dict.get (Dict.set d k v) k = Some v.
Proof.
  induction d as [|[k' v'] d IH]; cbn [Dict.set Dict.get].
  - now rewrite String.eqb_refl.
  - destruct (String.eqb_spec k' k) as [->|Hne]; cbn [Dict.get].
    + now rewrite String.eqb_refl.
    + destruct (String.eqb_spec k' k); [contradiction|exact IH].
Qed.

Lemma get_set_other (d : Dict.t V) (k k' : string) (v : V) :
  k' <> k -> Dict.get (Dict.set d k v) k' = Dict.get d k'.
Proof.
  intros Hne. induction d as [|[k0 v0] d IH]; cbn [Dict.set Dict.get].
  - destruct (String.eqb_spec k k'); [congruence|reflexivity].
  - destruct (String.eqb_spec k0 k) as [->|Hk]; cbn [Dict.get].
    + destruct (String.eqb_spec k k'); [congruence|reflexivity].
    + destruct (String.eqb_spec k0 k'); [reflexivity|exact IH].
Qed.

Lemma get_some_in (d : Dict.t V) (k : string) (v : V) :
  Dict.get d k = Some v -> In (k, v) d.
Proof.
  induction d as [|[k' v'] d IH]; cbn [Dict.get]; [discriminate|].
  destruct (String.eqb_spec k' k) as [->|Hne].
  - intros H. injection H as ->. now left.
  - intros H. right. now apply IH.
Qed.

Lemma in_get_some (d : Dict.t V) (k : string) (v : V) :
  NoDup (Dict.keys d) -> In (k, v) d -> Dict.get d k = Some v.
Proof.
  unfold Dict.keys.
  induction d as [|[k' v'] d IH]; intros Hnd Hin; [destruct Hin|].
  cbn [map fst] in Hnd. inversion Hnd as [|? ? Hk Hd]; subst.
  cbn [Dict.get]. destruct Hin as [E|Hin].
  - injection E as -> ->. now rewrite String.eqb_refl.
  - destruct (String.eqb_spec k' k) as [->|Hne]; [|now apply IH].
    exfalso. apply Hk. apply in_map_iff. now exists (k, v).
Qed.

Lemma get_none_iff (d : Dict.t V) (k : string) :
  Dict.get d k = None <-> ~ In k (Dict.keys d).
Proof.
  unfold Dict.keys. induction d as [|[k' v'] d IH]; cbn [Dict.get map fst].
  - split; [intros _ []|reflexivity].
  - destruct (String.eqb_spec k' k) as [->|Hne].
    + split; [discriminate|]. intros H. exfalso. apply H. now left.
    + rewrite IH. split; [intros H [E|Hin]; [congruence|now apply H]|].
      intros H Hin. apply H. now right.
Qed.

Lemma len_set_le (d : Dict.t V) (k : string) (v : V) :
  Py.len d <= Py.len (Dict.set d k v) <= Py.len d + 1.
Proof.
  unfold Py.len. induction d as [|[k' v'] d IH]; cbn [Dict.set List.length].
  - lia.
  - destruct (String.eqb_spec k' k); cbn [List.length]; lia.
Qed.

End DictLookups.

(** ** The counting loop *)

Lemma occurrences_nonneg (tokens : list string) (w : string) :
  0 <= occurrences tokens w.
Proof. unfold occurrences. lia. Qed.

Lemma occurrences_pos_iff (tokens : list string) (w : string) :
  0 < occurrences tokens w <-> In w tokens.
Proof.
  unfold occurrences. rewrite (count_occ_In string_dec). lia.
Qed.

Lemma counted_step (tokens : list string) (d : Dict.t Z) (word : string) :
  counted tokens d -> counted (tokens ++ [word]) (count_word d word).
Proof.
  intros Hd w. unfold count_word, Dict.get_default.
  assert (Hocc : occurrences (tokens ++ [word]) w
                 = occurrences tokens w
                   + (if string_dec word w then 1 else 0)).
  { unfold occurrences. rewrite count_occ_app. cbn [count_occ].
    destruct (string_dec word w); lia. }
  rewrite Hocc. pose proof (occurrences_nonneg tokens w) as Hn.
  destruct (string_dec word w) as [->|Hne].
  - rewrite get_set_same, Hd.
    destruct (Z.eqb_spec (occurrences tokens w) 0) as [E|E];
      destruct (Z.eqb_spec (occurrences tokens w + 1) 0); try lia.
    + now rewrite E.
    + reflexivity.
  - rewrite get_set_other by congruence. rewrite Hd.
    now rewrite Z.add_0_r.
Qed.

Lemma counted_words (ws : list string) :
  forall (tokens : list string) (d : Dict.t Z),
    counted tokens d -> counted (tokens ++ ws) (fold_left count_word ws d).
Proof.
  induction ws as [|w ws IH]; intros tokens d Hd; cbn [fold_left].
  - now rewrite app_nil_r.
  - replace (tokens ++ w :: ws) with ((tokens ++ [w]) ++ ws)
      by (now rewrite <- app_assoc).
    apply IH. now apply counted_step.
Qed.

(** The loop over the lines is the loop over the tokens of the corpus. *)
Lemma count_lines_as_words (tokenizer_ : string -> list string)
      (file : list string) :
  forall d : Dict.t Z,
    fold_left (count_line tokenizer_) file d
    = fold_left count_word (corpus_tokens tokenizer_ file) d.
Proof.
  induction file as [|line file IH]; intros d; [reflexivity|].
  cbn [fold_left corpus_tokens flat_map]. rewrite fold_left_app, IH.
  f_equal. unfold count_line.
  now destruct (String.eqb (Str.strip line) "").
Qed.

(** The counts of [build_vocab]: every token of the corpus with the number
    of times it occurs, and nothing else; distinct keys. *)
Lemma counts_of_corpus (tokenizer_ : string -> list string)
      (file : list string) :
  let counts := fold_left (count_line tokenizer_) file [] in
  NoDup (Dict.keys counts)
  /\ forall w c,
       In (w, c) counts
       <-> c = occurrences (corpus_tokens tokenizer_ file) w /\ 0 < c.
Proof.
  cbv zeta. destruct (count_file_keys tokenizer_ file [] (NoDup_nil _))
    as [Hnd _].
  split; [exact Hnd|].
  assert (Hc : counted (corpus_tokens tokenizer_ file)
                       (fold_left (count_line tokenizer_) file [])).
  { rewrite count_lines_as_words.
    apply (counted_words (corpus_tokens tokenizer_ file) [] []).
    intros w. reflexivity. }
  intros w c. pose proof (occurrences_nonneg (corpus_tokens tokenizer_ file) w).
  split.
  - intros Hin. apply in_get_some in Hin; [|exact Hnd].
    rewrite Hc in Hin.
    destruct (Z.eqb_spec (occurrences (corpus_tokens tokenizer_ file) w) 0);
      [discriminate|]. injection Hin as <-. lia.
  - intros [-> Hpos]. apply get_some_in. rewrite Hc.
    destruct (Z.eqb_spec (occurrences (corpus_tokens tokenizer_ file) w) 0);
      [lia|reflexivity].
Qed.



(** ** The shape of a built vocabulary, markers in the corpus or not *)

(** The kept items of [build_vocab], lines 28-31. *)
Lemma build_vocab_unfold (file : list string)
      (tokenizer_ : string -> list string) (max_size min_freq : Z) :
  let counts := fold_left (count_line tokenizer_) file [] in
  let vocab_list :=
    Py.slice
      (sorted_desc (filter (fun item => snd item >=? min_freq) counts))
      0 max_size in
  build_vocab file tokenizer_ max_size min_freq
  = Dict.update
      (combine (map fst vocab_list) (Py.range (Py.len vocab_list)))
      [(UNK, Py.len vocab_list); (PAD, Py.len vocab_list + 1)].
Proof.
  cbv zeta. unfold build_vocab.
  destruct (count_file_keys tokenizer_ file [] (NoDup_nil _)) as [Hnd _].
  destruct (vocab_list_keys (fold_left (count_line tokenizer_) file [])
              max_size min_freq Hnd) as [Hnd' _].
  rewrite comprehension_items by exact Hnd'.
  unfold enumerate at 1 2 3. rewrite ranked_words.
  assert (Hlen : forall (words : list string) (k : Z),
            k = Py.len words -> Py.len (combine words (Py.range k)) = k).
  { intros words k ->. unfold Py.len at 1. rewrite length_combine.
    pose proof (len_range (Py.len words)) as Hr.
    pose proof (len_nonneg words). unfold Py.len in *. lia. }
  rewrite Hlen by (now rewrite len_map). reflexivity.
Qed.

(** Looking a word up among ranked words: its rank is a position that holds
    the word. *)
Lemma get_ranked (words : list string) (w : string) :
  forall (start : nat) (i : Z),
    Dict.get (combine words (map Z.of_nat (seq start (List.length words)))) w
    = Some i ->
    exists j, i = Z.of_nat (start + j) /\ nth_error words j = Some w.
Proof.
  induction words as [|x words IH]; intros start i; cbn; [discriminate|].
  destruct (String.eqb_spec x w) as [->|Hne].
  - intros H. injection H as <-. exists 0%nat. split; [f_equal; lia|easy].
  - intros H. destruct (IH (S start) i H) as [j [-> Hj]].
    exists (S j). split; [f_equal; lia|exact Hj].
Qed.

Lemma ranked_has (words : list string) (w : string) :
  forall start : nat,
    In w words ->
    exists i,
      Dict.get (combine words (map Z.of_nat (seq start (List.length words)))) w
      = Some i.
Proof.
  induction words as [|x words IH]; intros start Hin; [destruct Hin|].
  cbn. destruct (String.eqb_spec x w) as [->|Hne]; [eauto|].
  destruct Hin as [E|Hin]; [contradiction|]. now apply IH.
Qed.

(** The sort gives descending counts. *)
Lemma insert_desc_sorted (x : string * Z) (l : list (string * Z)) :
  StronglySorted (fun a b => snd b <= snd a) l ->
  StronglySorted (fun a b => snd b <= snd a) (insert_desc x l).
Proof.
  induction l as [|y l IH]; intros Hs; cbn.
  - constructor; constructor.
  - inversion Hs as [|? ? Hl Hy]; subst.
    destruct (Z.gtb_spec (snd y) (snd x)) as [Hgt|Hle].
    + constructor; [now apply IH|].
      apply (Permutation_Forall (x := x :: l));
        [symmetry; apply insert_desc_perm|].
      constructor; [lia|exact Hy].
    + constructor; [exact Hs|]. constructor; [lia|].
      eapply Forall_impl; [|exact Hy]. cbn. intros a Ha. lia.
Qed.

Lemma sorted_desc_sorted (l : list (string * Z)) :
  StronglySorted (fun a b => snd b <= snd a) (sorted_desc l).
Proof.
  induction l as [|x l IH]; cbn; [constructor|].
  now apply insert_desc_sorted.
Qed.

Lemma sorted_nth {A : Type} (R : A -> A -> Prop) (l : list A) :
  StronglySorted R l ->
  forall (i j : nat) (a b : A),
    (i < j)%nat -> nth_error l i = Some a -> nth_error l j = Some b -> R a b.
Proof.
  induction 1 as [|x l Hl IH Hx]; intros i j a b Hij Hi Hj.
  - destruct i; discriminate.
  - destruct j as [|j]; [lia|]. cbn in Hj. destruct i as [|i]; cbn in Hi.
    + injection Hi as <-. rewrite Forall_forall in Hx. apply Hx.
      eapply nth_error_In; eassumption.
    + eapply IH; [|eassumption|eassumption]. lia.
Qed.

Lemma firstn_nth {A : Type} (n i : nat) (l : list A) (a : A) :
  nth_error (firstn n l) i = Some a -> nth_error l i = Some a.
Proof.
  revert n i. induction l as [|x l IH]; intros [|n] [|i]; cbn;
    try discriminate; auto. apply IH.
Qed.

Section VocabShape.

Variable file : list string.
Variable tokenizer_ : string -> list string.
Variables max_size min_freq : Z.

Let tokens := corpus_tokens tokenizer_ file.
Let counts := fold_left (count_line tokenizer_) file [].
Let kept := filter (fun item : string * Z => snd item >=? min_freq) counts.
Let vocab_list := Py.slice (sorted_desc kept) 0 max_size.
Let vocab := build_vocab file tokenizer_ max_size min_freq.

(** An item of [vocab_list] is a token with its count, and the count is at
    least [min_freq]. *)
Lemma vocab_list_items (w : string) (c : Z) :
  In (w, c) vocab_list ->
  c = occurrences tokens w /\ 0 < c /\ min_freq <= c.
Proof.
  intros Hin. unfold vocab_list in Hin. rewrite slice_is_prefix in Hin.
  apply firstn_incl in Hin.
  apply (Permutation_in _ (sorted_desc_perm kept)) in Hin.
  apply filter_In in Hin. destruct Hin as [Hin Hfreq]. cbn [snd] in Hfreq.
  apply (proj2 (counts_of_corpus tokenizer_ file)) in Hin.
  destruct Hin as [-> Hpos]. repeat split; [assumption|].
  now destruct (Z.geb_spec (occurrences (corpus_tokens tokenizer_ file) w)
                           min_freq).
Qed.

(** The id of a word that is no marker is its position in [vocab_list]. *)
Lemma word_id_position (w : string) (i : Z) :
  w <> UNK -> w <> PAD ->
  Dict.get vocab w = Some i ->
  0 <= i
  /\ nth_error vocab_list (Z.to_nat i) = Some (w, occurrences tokens w)
  /\ 0 < occurrences tokens w /\ min_freq <= occurrences tokens w.
Proof.
  intros Hunk Hpad. unfold vocab. rewrite build_vocab_unfold. cbv zeta.
  fold counts kept vocab_list. unfold Dict.update. cbn [fold_left fst snd].
  rewrite !get_set_other by congruence.
  unfold Py.range, Py.len. rewrite Nat2Z.id.
  rewrite <- (length_map fst vocab_list). intros Hget.
  destruct (get_ranked _ _ _ _ Hget) as [j [-> Hj]].
  rewrite nth_error_map in Hj.
  destruct (nth_error vocab_list j) as [[w' c]|] eqn:Hnth; [|discriminate].
  cbn in Hj. injection Hj as ->.
  destruct (vocab_list_items w c (nth_error_In _ _ Hnth)) as [-> [Hpos Hf]].
  cbn [Nat.add]. rewrite Nat2Z.id. repeat split; try assumption. lia.
Qed.

End VocabShape.

(** The ids of a built vocabulary, whatever the corpus holds. *)
Lemma build_vocab_ids :
  forall (file : list string) (tokenizer_ : string -> list string)
         (max_size min_freq : Z),
  exists k,
    0 <= k
    /\ Dict.get (build_vocab file tokenizer_ max_size min_freq) UNK = Some k
    /\ Dict.get (build_vocab file tokenizer_ max_size min_freq) PAD
       = Some (k + 1)
    /\ (forall w i,
          Dict.get (build_vocab file tokenizer_ max_size min_freq) w = Some i ->
          0 <= i <= k + 1)
    /\ Py.len (build_vocab file tokenizer_ max_size min_freq) <= k + 2
    /\ (0 <= max_size -> k <= max_size).
Proof.
  intros file tokenizer_ max_size min_freq.
  pose proof (build_vocab_unfold file tokenizer_ max_size min_freq) as Hv.
  cbv zeta in Hv.
  destruct (count_file_keys tokenizer_ file [] (NoDup_nil _)) as [Hnd _].
  destruct (vocab_list_keys (fold_left (count_line tokenizer_) file [])
              max_size min_freq Hnd) as [_ [_ Hbound]].
  cbv zeta in Hbound.
  set (vocab_list := Py.slice _ 0 max_size) in *.
  set (k := Py.len vocab_list) in *.
  assert (Hunk : Dict.get (build_vocab file tokenizer_ max_size min_freq) UNK
                 = Some k).
  { rewrite Hv. unfold Dict.update. cbn [fold_left fst snd].
    rewrite get_set_other by discriminate. apply get_set_same. }
  assert (Hpad : Dict.get (build_vocab file tokenizer_ max_size min_freq) PAD
                 = Some (k + 1)).
  { rewrite Hv. unfold Dict.update. cbn [fold_left fst snd].
    apply get_set_same. }
  exists k. pose proof (len_nonneg vocab_list) as Hk. fold k in Hk.
  repeat split; try assumption.
  - destruct (string_dec w UNK) as [->|Hu]; [rewrite Hunk in H; now inversion H|].
    destruct (string_dec w PAD) as [->|Hp]; [rewrite Hpad in H; inversion H; lia|].
    now destruct (word_id_position file tokenizer_ max_size min_freq w i Hu Hp H).
  - destruct (string_dec w UNK) as [->|Hu];
      [rewrite Hunk in H; inversion H; lia|].
    destruct (string_dec w PAD) as [->|Hp];
      [rewrite Hpad in H; inversion H; lia|].
    destruct (word_id_position file tokenizer_ max_size min_freq w i Hu Hp H)
      as [Hi [Hnth _]].
    fold vocab_list in Hnth.
    assert (Hlt : (Z.to_nat i < List.length vocab_list)%nat).
    { apply nth_error_Some. now rewrite Hnth. }
    unfold k, Py.len. lia.
  - rewrite Hv. unfold Dict.update. cbn [fold_left fst snd].
    match goal with
    | |- Py.len (Dict.set (Dict.set ?d ?a ?x) ?b ?y) <= _ =>
        pose proof (len_set_le d a x); pose proof (len_set_le (Dict.set d a x) b y);
        assert (Py.len d <= k)
    end.
    { unfold Py.len at 1. rewrite length_combine.
      pose proof (len_range k). unfold Py.len in *. lia. }
    lia.
Qed.


(** The ids follow the counts: of two words of the vocabulary that are no
    markers, the one with the smaller id occurs at least as often in the
    corpus as the other. *)
Theorem word_ids_follow_frequency :
  forall (file : list string) (tokenizer_ : string -> list string)
         (max_size min_freq : Z) (w1 w2 : string) (i1 i2 : Z),
    w1 <> UNK -> w1 <> PAD -> w2 <> UNK -> w2 <> PAD ->
    Dict.get (build_vocab file tokenizer_ max_size min_freq) w1 = Some i1 ->
    Dict.get (build_vocab file tokenizer_ max_size min_freq) w2 = Some i2 ->
    i1 < i2 ->
    occurrences (corpus_tokens tokenizer_ file) w2
    <= occurrences (corpus_tokens tokenizer_ file) w1.
Proof.
  intros file tokenizer_ max_size min_freq w1 w2 i1 i2 Hu1 Hp1 Hu2 Hp2
         H1 H2 Hlt.
  destruct (word_id_position file tokenizer_ max_size min_freq w1 i1 Hu1 Hp1 H1)
    as [Hi1 [Hn1 _]].
  destruct (word_id_position file tokenizer_ max_size min_freq w2 i2 Hu2 Hp2 H2)
    as [Hi2 [Hn2 _]].
  rewrite slice_is_prefix in Hn1, Hn2.
  apply firstn_nth in Hn1. apply firstn_nth in Hn2.
  apply (sorted_nth _ _ (sorted_desc_sorted _) (Z.to_nat i1) (Z.to_nat i2)
           _ _ ltac:(lia) Hn1 Hn2).
Qed.

Lemma word_ids_follow_frequency_witness :
  let file := [tabbed "on the mat" "0"; tabbed "the cat" "1"] in
  let v := build_vocab file (tokenizer true) 10 1 in
  Dict.get v "the" = Some 0 /\ Dict.get v "cat" = Some 3
  /\ occurrences (corpus_tokens (tokenizer true) file) "cat"
     <= occurrences (corpus_tokens (tokenizer true) file) "the".
Proof.
  intros file v.
  assert (H1 : Dict.get v "the" = Some 0) by reflexivity.
  assert (H2 : Dict.get v "cat" = Some 3) by reflexivity.
  split; [exact H1|]. split; [exact H2|].
  apply (word_ids_follow_frequency file (tokenizer true) 10 1 "the" "cat" 0 3);
    try discriminate; try assumption. lia.
Defined.

(** A word of the vocabulary that is no marker is a token of the corpus
    that occurs at least [min_freq] times. *)
Theorem vocabulary_words_reach_min_freq :
  forall (file : list string) (tokenizer_ : string -> list string)
         (max_size min_freq : Z) (w : string) (i : Z),
    w <> UNK -> w <> PAD ->
    Dict.get (build_vocab file tokenizer_ max_size min_freq) w = Some i ->
    In w (corpus_tokens tokenizer_ file)
    /\ min_freq <= occurrences (corpus_tokens tokenizer_ file) w.
Proof.
  intros file tokenizer_ max_size min_freq w i Hu Hp H.
  destruct (word_id_position file tokenizer_ max_size min_freq w i Hu Hp H)
    as [_ [_ [Hpos Hfreq]]].
  split; [now apply occurrences_pos_iff|exact Hfreq].
Qed.

Lemma vocabulary_words_reach_min_freq_witness :
  let file := [tabbed "on the mat" "0"; tabbed "the cat" "1"] in
  Dict.get (build_vocab file (tokenizer true) 10 2) "the" = Some 0
  /\ In "the" (corpus_tokens (tokenizer true) file)
  /\ 2 <= occurrences (corpus_tokens (tokenizer true) file) "the".
Proof.
  intros file.
  assert (H : Dict.get (build_vocab file (tokenizer true) 10 2) "the"
              = Some 0) by reflexivity.
  split; [exact H|].
  apply (vocabulary_words_reach_min_freq file (tokenizer true) 10 2 "the" 0);
    try discriminate. exact H.
Defined.

Lemma clamp_all (n hi : Z) : 0 <= n <= hi -> Py.clamp n hi = n.
Proof. intros H. unfold Py.clamp. destruct (Z.ltb_spec hi 0); lia. Qed.

(** When the corpus has at most [max_size] distinct tokens, nothing is cut
    off: every token that occurs at least [min_freq] times has an id. *)
Theorem frequent_tokens_all_get_ids :
  forall (file : list string) (tokenizer_ : string -> list string)
         (max_size min_freq : Z) (w : string),
    Py.len (nodup string_dec (corpus_tokens tokenizer_ file)) <= max_size ->
    In w (corpus_tokens tokenizer_ file) ->
    min_freq <= occurrences (corpus_tokens tokenizer_ file) w ->
    exists i,
      Dict.get (build_vocab file tokenizer_ max_size min_freq) w = Some i.
Proof.
  intros file tokenizer_ max_size min_freq w Hsize Hin Hfreq.
  rewrite build_vocab_unfold. cbv zeta.
  unfold Dict.update. cbn [fold_left fst snd].
  destruct (string_dec w PAD) as [->|Hp]; [rewrite get_set_same; eauto|].
  rewrite get_set_other by congruence.
  destruct (string_dec w UNK) as [->|Hu]; [rewrite get_set_same; eauto|].
  rewrite get_set_other by congruence.
  destruct (counts_of_corpus tokenizer_ file) as [Hnd Hitems].
  destruct (count_file_keys tokenizer_ file [] (NoDup_nil _)) as [_ Hincl].
  cbv zeta in Hnd, Hitems, Hincl.
  set (counts := fold_left (count_line tokenizer_) file []) in *.
  set (kept := filter (fun item : string * Z => snd item >=? min_freq) counts).
  assert (Hlen : Py.len (sorted_desc kept) <= max_size).
  { unfold Py.len in *.
    rewrite (Permutation_length (sorted_desc_perm kept)).
    pose proof (filter_length_le
                  (fun item : string * Z => snd item >=? min_freq) counts).
    fold kept in H.
    assert (List.length (Dict.keys counts)
            <= List.length (nodup string_dec (corpus_tokens tokenizer_ file)))%nat.
    { apply NoDup_incl_length; [exact Hnd|]. intros x Hx.
      apply nodup_In. destruct (Hincl x Hx) as [[]|Hx']. exact Hx'. }
    unfold Dict.keys in *. rewrite length_map in *. lia. }
  assert (Hall : Py.slice (sorted_desc kept) 0 max_size = sorted_desc kept).
  { rewrite slice_is_prefix, clamp_all
      by (pose proof (len_nonneg (sorted_desc kept)); lia).
    unfold Py.len. rewrite Nat2Z.id. apply firstn_all. }
  rewrite Hall. unfold Py.range, Py.len. rewrite Nat2Z.id.
  replace (List.length (sorted_desc kept))
    with (List.length (map fst (sorted_desc kept))) by apply length_map.
  apply ranked_has. apply in_map_iff.
  exists (w, occurrences (corpus_tokens tokenizer_ file) w). split; [easy|].
  apply (Permutation_in _ (Permutation_sym (sorted_desc_perm kept))).
  apply filter_In. split.
  - apply Hitems. split; [reflexivity|]. now apply occurrences_pos_iff.
  - cbn [snd].
    destruct (Z.geb_spec (occurrences (corpus_tokens tokenizer_ file) w)
                         min_freq); [reflexivity|lia].
Qed.

Lemma frequent_tokens_all_get_ids_witness :
  let file := [tabbed "on the mat" "0"; tabbed "the cat" "1"] in
  Py.len (nodup string_dec (corpus_tokens (tokenizer true) file)) <= 4
  /\ In "mat" (corpus_tokens (tokenizer true) file)
  /\ 1 <= occurrences (corpus_tokens (tokenizer true) file) "mat"
  /\ exists i, Dict.get (build_vocab file (tokenizer true) 4 1) "mat" = Some i.
Proof.
  intros file.
  assert (H1 : Py.len (nodup string_dec (corpus_tokens (tokenizer true) file))
               <= 4) by (vm_compute; discriminate).
  assert (H2 : In "mat" (corpus_tokens (tokenizer true) file))
    by (vm_compute; tauto).
  assert (H3 : 1 <= occurrences (corpus_tokens (tokenizer true) file) "mat")
    by (vm_compute; discriminate).
  repeat split; try assumption.
  exact (frequent_tokens_all_get_ids file (tokenizer true) 4 1 "mat" H1 H2 H3).
Defined.

(** With [max_size = 0], or when no token of the corpus occurs [min_freq]
    times (an empty corpus among others), the vocabulary holds the two
    markers only, with the ids 0 and 1. *)
Theorem build_vocab_of_nothing :
  forall (file : list string) (tokenizer_ : string -> list string)
         (max_size min_freq : Z),
    max_size = 0
    \/ (forall w, In w (corpus_tokens tokenizer_ file) ->
                  occurrences (corpus_tokens tokenizer_ file) w < min_freq) ->
    build_vocab file tokenizer_ max_size min_freq = [(UNK, 0); (PAD, 1)].
Proof.
  intros file tokenizer_ max_size min_freq Hcase.
  rewrite build_vocab_unfold. cbv zeta.
  match goal with
  | |- context [Py.slice ?l 0 max_size] =>
      assert (Hnil : Py.slice l 0 max_size = [])
  end.
  { rewrite slice_is_prefix. destruct Hcase as [->|Hrare].
    - match goal with
      | |- firstn (Z.to_nat (Py.clamp (Py.len ?l) 0)) _ = _ =>
          pose proof (len_nonneg l) as Hn;
          replace (Py.clamp (Py.len l) 0) with 0
            by (unfold Py.clamp; destruct (Z.ltb_spec 0 0); lia)
      end.
      reflexivity.
    - destruct (counts_of_corpus tokenizer_ file) as [_ Hitems].
      cbv zeta in Hitems.
      assert (Hkept : filter (fun item : string * Z => snd item >=? min_freq)
                        (fold_left (count_line tokenizer_) file []) = []).
      { destruct (filter _ _) as [|[w c] rest] eqn:E; [reflexivity|].
        assert (Hin : In (w, c) ((w, c) :: rest)) by (now left).
        rewrite <- E in Hin. apply filter_In in Hin.
        destruct Hin as [Hin Hge]. apply Hitems in Hin.
        destruct Hin as [-> Hpos]. cbn [snd] in Hge.
        apply occurrences_pos_iff in Hpos. specialize (Hrare w Hpos).
        destruct (Z.geb_spec (occurrences (corpus_tokens tokenizer_ file) w)
                             min_freq); [lia|discriminate]. }
      rewrite Hkept. cbn [sorted_desc fold_right]. apply firstn_nil. }
  rewrite Hnil. reflexivity.
Qed.

Lemma build_vocab_of_nothing_witness :
  let file := [tabbed "on the mat" "0"; tabbed "the cat" "1"] in
  (forall w, In w (corpus_tokens (tokenizer true) file) ->
             occurrences (corpus_tokens (tokenizer true) file) w < 3)
  /\ build_vocab file (tokenizer true) 10 3 = [(UNK, 0); (PAD, 1)].
Proof.
  intros file.
  assert (H : forall w, In w (corpus_tokens (tokenizer true) file) ->
                occurrences (corpus_tokens (tokenizer true) file) w < 3).
  { intros w Hin. vm_compute in Hin.
    repeat (destruct Hin as [<-|Hin]; [reflexivity|]). destruct Hin. }
  split; [exact H|].
  apply (build_vocab_of_nothing file (tokenizer true) 10 3). right. exact H.
Defined.

(** * More on the generic line encoder *)

Section EncoderContents.

Context {device : Type}.
Variable cfg : config device.
Variable vocab : Dict.t Z.
Variable tokenizer_ : string -> list string.

Lemma lookup_words (ws : list string) :
  map (fun word => vocab_get vocab word (Dict.get vocab UNK)) (map Word ws)
  = map (lookup vocab) ws.
Proof. rewrite map_map. reflexivity. Qed.

(** The ids of a record for a positive pad size: the looked-up first [P]
    tokens, then the unknown id up to length [P]. *)
Lemma encode_line_ids (P : Z) (line content lbl : string) (r : record) :
  0 < P ->
  encode_line cfg vocab tokenizer_ P line = Ok (Some r) ->
  Str.split "009"%char (Str.strip line) = [content; lbl] ->
  words_line r
  = map (lookup vocab) (firstn (Z.to_nat P) (tokenizer_ content))
    ++ repeat (Dict.get vocab UNK)
              (Z.to_nat (P - Py.len (tokenizer_ content))).
Proof.
  intros HP Henc Hsplit.
  destruct (encode_line_inv cfg vocab tokenizer_ P line r Henc)
    as [content' [lbl' [_ [Hsplit' [_ [Hwords _]]]]]].
  rewrite Hsplit in Hsplit'. injection Hsplit' as <- <-. rewrite Hwords.
  destruct (Z.lt_ge_cases (Py.len (tokenizer_ content)) P) as [Hlt|Hge].
  - rewrite pad_or_cut_short by (rewrite ?len_map; lia). cbn [fst].
    rewrite map_app, lookup_words, len_map. unfold Py.times.
    rewrite map_repeat. cbn [vocab_get].
    rewrite firstn_all2 by (unfold Py.len in Hlt; lia). reflexivity.
  - rewrite pad_or_cut_long by (rewrite ?len_map; lia). cbn [fst].
    rewrite <- firstn_map, lookup_words, firstn_map.
    replace (Z.to_nat (P - Py.len (tokenizer_ content))) with 0%nat by lia.
    now rewrite app_nil_r.
Qed.

End EncoderContents.

(** For a positive pad size the ids of a record are the looked-up first [P]
    tokens of the line's text, a token of the vocabulary by its own id and
    any other by what [vocab.get(UNK)] gives, followed by that same unknown
    value up to length [P]. *)
Theorem generic_record_ids :
  forall (device : Type) (cfg : config device) (vocab : Dict.t Z)
         (tokenizer_ : string -> list string) (P : Z)
         (line content lbl : string) (r : record),
    0 < P ->
    encode_line cfg vocab tokenizer_ P line = Ok (Some r) ->
    Str.split "009"%char (Str.strip line) = [content; lbl] ->
    words_line r
    = map (lookup vocab) (firstn (Z.to_nat P) (tokenizer_ content))
      ++ repeat (Dict.get vocab UNK)
                (Z.to_nat (P - Py.len (tokenizer_ content)))
    /\ Str.int lbl = Ok (label r).
Proof.
  intros device cfg vocab tokenizer_ P line content lbl r HP Henc Hsplit.
  split; [now apply (encode_line_ids cfg vocab tokenizer_ P line content lbl)|].
  destruct (encode_line_inv cfg vocab tokenizer_ P line r Henc)
    as [content' [lbl' [_ [Hsplit' [Hint _]]]]].
  rewrite Hsplit in Hsplit'. now injection Hsplit' as <- <-.
Qed.

Lemma generic_record_ids_witness :
  let cfg := {| model_name := "TextCNN"; pad_size := 4; batch_size := 1;
                n_gram_vocab := 100; device_of := tt |} in
  let vocab := [("a", 0); ("b", 1); (UNK, 2); (PAD, 3)] in
  let r := Rec3 [Some 1; Some 2; Some 2; Some 2] (-5) 2 in
  0 < 4
  /\ encode_line cfg vocab (tokenizer false) 4 (tabbed "bz" "-5") = Ok (Some r)
  /\ Str.split "009"%char (Str.strip (tabbed "bz" "-5")) = ["bz"; "-5"]
  /\ words_line r = [Some 1; Some 2; Some 2; Some 2]
  /\ Str.int "-5" = Ok (label r).
Proof.
  intros cfg vocab r.
  assert (H1 : 0 < 4) by lia.
  assert (H2 : encode_line cfg vocab (tokenizer false) 4 (tabbed "bz" "-5")
               = Ok (Some r)) by reflexivity.
  assert (H3 : Str.split "009"%char (Str.strip (tabbed "bz" "-5"))
               = ["bz"; "-5"]) by reflexivity.
  split; [exact H1|]. split; [exact H2|]. split; [exact H3|].
  exact (generic_record_ids unit cfg vocab (tokenizer false) 4
           (tabbed "bz" "-5") "bz" "-5" r H1 H2 H3).
Defined.

(** With pad size 0 nothing is padded or cut: the record has one id for
    every token and the token count as its length.  With a negative pad
    size the last [-P] tokens are dropped and the recorded length is the
    negative pad size itself. *)
Theorem generic_record_without_pad_size :
  forall (device : Type) (cfg : config device) (vocab : Dict.t Z)
         (tokenizer_ : string -> list string) (P : Z)
         (line content lbl : string) (r : record),
    P <= 0 ->
    encode_line cfg vocab tokenizer_ P line = Ok (Some r) ->
    Str.split "009"%char (Str.strip line) = [content; lbl] ->
    words_line r
    = map (lookup vocab)
          (firstn (Z.to_nat (Py.len (tokenizer_ content) + P))
                  (tokenizer_ content))
    /\ seq_len r = (if P =? 0 then Py.len (tokenizer_ content) else P).
Proof.
  intros device cfg vocab tokenizer_ P line content lbl r HP Henc Hsplit.
  destruct (encode_line_inv cfg vocab tokenizer_ P line r Henc)
    as [content' [lbl' [_ [Hsplit' [_ [Hwords Hlen]]]]]].
  rewrite Hsplit in Hsplit'. injection Hsplit' as <- <-.
  rewrite Hwords, Hlen. unfold pad_or_cut.
  pose proof (len_nonneg (tokenizer_ content)) as Hn.
  destruct (Z.eqb_spec P 0) as [->|HP0]; cbn [negb fst snd].
  - rewrite lookup_words, Z.add_0_r, len_map. unfold Py.len.
    rewrite Nat2Z.id. now rewrite firstn_all.
  - rewrite len_map.
    destruct (Z.ltb_spec (Py.len (tokenizer_ content)) P) as [E|_]; [lia|].
    cbn [fst snd]. split; [|reflexivity].
    rewrite slice_is_prefix, <- firstn_map, lookup_words, firstn_map.
    rewrite len_map. unfold Py.clamp.
    destruct (Z.ltb_spec P 0) as [_|E]; [|lia].
    do 2 f_equal. lia.
Qed.

Lemma generic_record_without_pad_size_witness :
  let cfg := {| model_name := "TextCNN"; pad_size := -1; batch_size := 1;
                n_gram_vocab := 100; device_of := tt |} in
  let vocab := [("a", 0); ("b", 1); (UNK, 2); (PAD, 3)] in
  -1 <= 0
  /\ encode_line cfg vocab (tokenizer false) (-1) (tabbed "abz" "1")
     = Ok (Some (Rec3 [Some 0; Some 1] 1 (-1)))
  /\ Str.split "009"%char (Str.strip (tabbed "abz" "1")) = ["abz"; "1"]
  /\ seq_len (Rec3 [Some 0; Some 1] 1 (-1)) = -1.
Proof.
  intros cfg vocab.
  assert (H1 : -1 <= 0) by lia.
  assert (H2 : encode_line cfg vocab (tokenizer false) (-1) (tabbed "abz" "1")
               = Ok (Some (Rec3 [Some 0; Some 1] 1 (-1)))) by reflexivity.
  assert (H3 : Str.split "009"%char (Str.strip (tabbed "abz" "1"))
               = ["abz"; "1"]) by reflexivity.
  split; [exact H1|]. split; [exact H2|]. split; [exact H3|].
  destruct (generic_record_without_pad_size unit cfg vocab (tokenizer false)
              (-1) (tabbed "abz" "1") "abz" "1" _ H1 H2 H3) as [_ Hl].
  exact Hl.
Defined.

(** ** The n-gram features of the FastText records *)

Lemma mod_in_range (a buckets h : Z) :
  0 < buckets -> Py.mod_ a buckets = Ok h -> 0 <= h < buckets.
Proof.
  intros Hb. unfold Py.mod_. destruct (Z.eqb_spec buckets 0); [lia|].
  intros H. injection H as <-. now apply Z.mod_pos_bound.
Qed.

Lemma biGramHash_in_range (sequence : list (option Z)) (t buckets h : Z) :
  0 < buckets -> biGramHash sequence t buckets = Ok h -> 0 <= h < buckets.
Proof.
  intros Hb. unfold biGramHash.
  destruct (if t - 1 >=? 0 then _ else _) as [t1|]; cbn [bind];
    [|discriminate].
  destruct (mul t1 14918087); cbn [bind]; [|discriminate].
  now apply mod_in_range.
Qed.

Lemma triGramHash_in_range (sequence : list (option Z)) (t buckets h : Z) :
  0 < buckets -> triGramHash sequence t buckets = Ok h -> 0 <= h < buckets.
Proof.
  intros Hb. unfold triGramHash.
  destruct (if t - 1 >=? 0 then _ else _) as [t1|]; cbn [bind];
    [|discriminate].
  destruct (if t - 2 >=? 0 then _ else _) as [t2|]; cbn [bind];
    [|discriminate].
  destruct (mul t2 14918087); cbn [bind]; [|discriminate].
  destruct (mul t1 14918087); cbn [bind]; [|discriminate].
  now apply mod_in_range.
Qed.

(** What the n-gram loop appends: the hashes of its positions, in order. *)
Lemma ngrams_appends (sequence : list (option Z)) (buckets : Z)
      (positions : list Z) :
  forall bigram trigram bigram' trigram',
    ngrams sequence buckets positions bigram trigram = Ok (bigram', trigram') ->
    exists bs ts,
      bigram' = bigram ++ bs /\ trigram' = trigram ++ ts
      /\ map Ok bs = map (fun i => biGramHash sequence i buckets) positions
      /\ map Ok ts = map (fun i => triGramHash sequence i buckets) positions.
Proof.
  induction positions as [|i rest IH]; intros bigram trigram bigram' trigram';
    cbn [ngrams].
  - intros H. injection H as <- <-. exists [], [].
    now rewrite !app_nil_r.
  - destruct (biGramHash sequence i buckets) as [b|] eqn:Hb; cbn [bind];
      [|discriminate].
    destruct (triGramHash sequence i buckets) as [t|] eqn:Ht; cbn [bind];
      [|discriminate].
    intros H. destruct (IH _ _ _ _ H) as [bs [ts [-> [-> [Hbs Hts]]]]].
    exists (b :: bs), (t :: ts). rewrite <- !app_assoc. cbn [app map].
    rewrite Hb, Ht, Hbs, Hts. repeat split.
Qed.

(** For the FastText model every record carries a bigram and a trigram
    sequence with one entry for every position of [range(pad_size)]: the
    entry at position [i] is the hash of the record's own ids at [i], and
    with a positive bucket count every entry is in [0 .. buckets-1]. *)
Theorem fasttext_ngram_features :
  forall (device : Type) (cfg : config device) (vocab : Dict.t Z)
         (tokenizer_ : string -> list string) (P : Z) (line : string)
         (r : record),
    model_name cfg = "FastText" ->
    encode_line cfg vocab tokenizer_ P line = Ok (Some r) ->
    exists w l n bigram trigram,
      r = Rec5 w l n bigram trigram
      /\ map Ok bigram
         = map (fun i => biGramHash w i (n_gram_vocab cfg)) (Py.range P)
      /\ map Ok trigram
         = map (fun i => triGramHash w i (n_gram_vocab cfg)) (Py.range P)
      /\ Py.len bigram = Z.max 0 P /\ Py.len trigram = Z.max 0 P
      /\ (0 < n_gram_vocab cfg ->
          forall h, In h bigram \/ In h trigram -> 0 <= h < n_gram_vocab cfg).
Proof.
  intros device cfg vocab tokenizer_ P line r Hmodel. unfold encode_line.
  destruct (String.eqb (Str.strip line) ""); [discriminate|].
  destruct (Str.split "009"%char (Str.strip line)) as [|content [|lbl [|? ?]]];
    cbn [unpack2 bind]; try discriminate.
  destruct (pad_or_cut vocab (map Word (tokenizer_ content)) P) as [token n].
  rewrite Hmodel. cbn [String.eqb Ascii.eqb Bool.eqb].
  set (w := map (fun word => vocab_get vocab word (Dict.get vocab UNK)) token).
  destruct (ngrams w (n_gram_vocab cfg) (Py.range P) [] [])
    as [[bigram trigram]|] eqn:Hgrams; cbn [bind]; [|discriminate].
  destruct (Str.int lbl) as [l|]; cbn [bind]; [|discriminate].
  intros H. injection H as <-.
  destruct (ngrams_appends _ _ _ _ _ _ _ Hgrams)
    as [bs [ts [-> [-> [Hbs Hts]]]]]. cbn [app].
  exists w, l, n, bs, ts.
  assert (Hlb : Py.len bs = Z.max 0 P).
  { rewrite <- (len_map Ok bs), Hbs, len_map. apply len_range. }
  assert (Hlt : Py.len ts = Z.max 0 P).
  { rewrite <- (len_map Ok ts), Hts, len_map. apply len_range. }
  split; [reflexivity|]. split; [exact Hbs|]. split; [exact Hts|].
  split; [exact Hlb|]. split; [exact Hlt|].
  intros Hpos h [Hin|Hin].
  - apply (in_map Ok) in Hin. rewrite Hbs in Hin.
    apply in_map_iff in Hin. destruct Hin as [i [Hi _]].
    eapply biGramHash_in_range; eassumption.
  - apply (in_map Ok) in Hin. rewrite Hts in Hin.
    apply in_map_iff in Hin. destruct Hin as [i [Hi _]].
    eapply triGramHash_in_range; eassumption.
Qed.

Lemma fasttext_ngram_features_witness :
  let cfg := {| model_name := "FastText"; pad_size := 3; batch_size := 1;
                n_gram_vocab := 100; device_of := tt |} in
  let vocab := [("a", 0); (UNK, 1); (PAD, 2)] in
  let r := Rec5 [Some 1; Some 1; Some 1] 7 2 [0; 87; 87] [0; 87; 50] in
  model_name cfg = "FastText"
  /\ encode_line cfg vocab (tokenizer false) 3 (tabbed "zz" "7") = Ok (Some r)
  /\ exists w l n bigram trigram,
       r = Rec5 w l n bigram trigram
       /\ Py.len bigram = 3 /\ Py.len trigram = 3.
Proof.
  intros cfg vocab r.
  assert (H1 : model_name cfg = "FastText") by reflexivity.
  assert (H2 : encode_line cfg vocab (tokenizer false) 3 (tabbed "zz" "7")
               = Ok (Some r)) by reflexivity.
  split; [exact H1|]. split; [exact H2|].
  destruct (fasttext_ngram_features unit cfg vocab (tokenizer false) 3
              (tabbed "zz" "7") r H1 H2)
    as [w [l [n [bg [tg [Hr [_ [_ [Hb [Ht _]]]]]]]]]].
  exists w, l, n, bg, tg. repeat split; assumption.
Defined.

(** ** The loop over the lines *)

Section LoaderStructure.

Context {device : Type}.
Variable cfg : config device.
Variable vocab : Dict.t Z.
Variable tokenizer_ : string -> list string.

(** The records that are already in [contents] stay in front. *)
Lemma load_loop_acc (P : Z) (file : list string) :
  forall contents : list record,
    load_loop cfg vocab tokenizer_ contents file P
    = (rs <- load_loop cfg vocab tokenizer_ [] file P ;; Ok (contents ++ rs)).
Proof.
  induction file as [|line rest IH]; intros contents; cbn [load_loop bind].
  - now rewrite app_nil_r.
  - destruct (encode_line cfg vocab tokenizer_ P line) as [[r|]|e];
      cbn [bind]; [|apply IH|reflexivity].
    rewrite (IH (contents ++ [r])), (IH ([] ++ [r])).
    destruct (load_loop cfg vocab tokenizer_ [] rest P); cbn [bind];
      [|reflexivity].
    now rewrite <- app_assoc.
Qed.

Lemma load_dataset_cons (P : Z) (line : string) (rest : list string) :
  load_dataset cfg vocab tokenizer_ (line :: rest) P
  = (r <- encode_line cfg vocab tokenizer_ P line ;;
     rs <- load_dataset cfg vocab tokenizer_ rest P ;;
     Ok (match r with Some rec => rec :: rs | None => rs end)).
Proof.
  unfold load_dataset. cbn [load_loop].
  destruct (encode_line cfg vocab tokenizer_ P line) as [[r|]|e];
    cbn [bind]; try reflexivity.
  - rewrite load_loop_acc. reflexivity.
  - now destruct (load_loop cfg vocab tokenizer_ [] rest P).
Qed.

(** A blank line gives no record and no error; no other line gives
    [None]. *)
Lemma encode_line_blank (P : Z) (line : string) :
  (nonblank line = false ->
   encode_line cfg vocab tokenizer_ P line = Ok None)
  /\ (nonblank line = true ->
      encode_line cfg vocab tokenizer_ P line <> Ok None).
Proof.
  unfold encode_line, nonblank.
  destruct (String.eqb (Str.strip line) ""); cbn [negb];
    split; try discriminate; try reflexivity.
  intros _.
  destruct (Str.split "009"%char (Str.strip line)) as [|content [|lbl [|? ?]]];
    cbn [unpack2 bind]; try discriminate.
  destruct (pad_or_cut vocab (map Word (tokenizer_ content)) P) as [token n].
  destruct (String.eqb (model_name cfg) "FastText").
  - destruct (ngrams _ _ _ _ _) as [[bigram trigram]|]; cbn [bind];
      [|discriminate].
    destruct (Str.int lbl); cbn [bind]; discriminate.
  - destruct (Str.int lbl); cbn [bind]; discriminate.
Qed.

End LoaderStructure.




(** ** The vocabulary builder and the encoder together *)

(** With a vocabulary that [build_vocab] returned, no id of any record is
    missing: a token of the vocabulary has its id, every other token and
    every padded position has the id of the unknown marker, and all ids are
    between 0 and the id of the padding marker. *)
Theorem built_vocabulary_encodes_every_token :
  forall (device : Type) (cfg : config device)
         (train : list string) (tokenizer_ : string -> list string)
         (max_size min_freq : Z)
         (tokenizer' : string -> list string) (file : list string) (P : Z)
         (records : list record) (r : record) (v : option Z),
    load_dataset cfg (build_vocab train tokenizer_ max_size min_freq)
                 tokenizer' file P = Ok records ->
    In r records ->
    In v (words_line r) ->
    exists id pad_id,
      v = Some id
      /\ Dict.get (build_vocab train tokenizer_ max_size min_freq) PAD
         = Some pad_id
      /\ 0 <= id <= pad_id.
Proof.
  intros device cfg train tokenizer_ max_size min_freq tokenizer' file P
         records r v Hload Hr Hv.
  destruct (build_vocab_ids train tokenizer_ max_size min_freq)
    as [k [Hk [Hunk [Hpad [Hids _]]]]].
  set (vocab := build_vocab train tokenizer_ max_size min_freq) in *.
  destruct (load_loop_inv cfg vocab tokenizer' P file [] records r Hload Hr)
    as [[]|[line [_ Henc]]].
  destruct (encode_line_inv cfg vocab tokenizer' P line r Henc)
    as [content [lbl [_ [_ [_ [Hwords _]]]]]].
  rewrite Hwords in Hv. apply in_map_iff in Hv.
  destruct Hv as [word [<- _]].
  assert (Hdefault : exists id pad_id,
            Dict.get vocab UNK = Some id
            /\ Dict.get vocab PAD = Some pad_id /\ 0 <= id <= pad_id).
  { exists k, (k + 1). repeat split; try assumption; lia. }
  destruct word as [s|looked]; cbn [vocab_get]; [|exact Hdefault].
  destruct (Dict.get vocab s) as [id|] eqn:Hs; [|exact Hdefault].
  exists id, (k + 1). split; [reflexivity|]. split; [exact Hpad|].
  now apply (Hids s).
Qed.

Lemma built_vocabulary_encodes_every_token_witness :
  let cfg := {| model_name := "TextCNN"; pad_size := 3; batch_size := 1;
                n_gram_vocab := 100; device_of := tt |} in
  let train := [tabbed "ab" "0"] in
  let r := Rec3 [Some 2; Some 0; Some 2] 1 2 in
  load_dataset cfg (build_vocab train (tokenizer false) 10 1)
               (tokenizer false) [tabbed "za" "1"] 3 = Ok [r]
  /\ In r [r]
  /\ In (Some 2) (words_line r)
  /\ exists id pad_id,
       Some 2 = Some id
       /\ Dict.get (build_vocab train (tokenizer false) 10 1) PAD = Some pad_id
       /\ 0 <= id <= pad_id.
Proof.
  intros cfg train r.
  assert (H1 : load_dataset cfg (build_vocab train (tokenizer false) 10 1)
                 (tokenizer false) [tabbed "za" "1"] 3 = Ok [r])
    by reflexivity.
  assert (H2 : In r [r]) by (now left).
  assert (H3 : In (Some 2) (words_line r)) by (now left).
  split; [exact H1|]. split; [exact H2|]. split; [exact H3|].
  exact (built_vocabulary_encodes_every_token unit cfg train (tokenizer false)
           10 1 (tokenizer false) [tabbed "za" "1"] 3 [r] r (Some 2)
           H1 H2 H3).
Defined.

(** ** [build_dataset] *)



(** * More on the sub-word line encoder *)

Section BertLoader.

Variable tokenize : string -> list string.
Variable convert_tokens_to_ids : list string -> list Z.

(** The three cases of a line: blank, malformed, encoded. *)
Lemma encode_line_bert_cases (P : Z) (line : string) :
  (nonblank line = false
   /\ encode_line_bert tokenize convert_tokens_to_ids P line = Ok None)
  \/ (malformed line = true
      /\ encode_line_bert tokenize convert_tokens_to_ids P line
         = Raise ValueError)
  \/ (nonblank line = true /\ malformed line = false
      /\ exists r, encode_line_bert tokenize convert_tokens_to_ids P line
                   = Ok (Some r)).
Proof.
  unfold encode_line_bert, malformed, nonblank.
  destruct (String.eqb (Str.strip line) ""); cbn [negb andb];
    [left; now split|right].
  destruct (Str.split "009"%char (Str.strip line)) as [|content [|lbl [|? ?]]];
    cbn [unpack2 bind]; try (left; now split).
  destruct (if negb (P =? 0) then _ else _) as [mask ids].
  destruct (Str.int lbl) as [l|e] eqn:Hint; cbn [bind is_ok negb].
  - right. repeat split. eauto.
  - left. split; [reflexivity|]. f_equal.
    eapply int_raises_value_error; eassumption.
Qed.

Lemma load_loop_bert_acc (P : Z) (file : list string) :
  forall contents : list bert_record,
    load_loop_bert tokenize convert_tokens_to_ids contents file P
    = (rs <- load_loop_bert tokenize convert_tokens_to_ids [] file P ;;
       Ok (contents ++ rs)).
Proof.
  induction file as [|line rest IH]; intros contents;
    cbn [load_loop_bert bind].
  - now rewrite app_nil_r.
  - destruct (encode_line_bert tokenize convert_tokens_to_ids P line)
      as [[r|]|e]; cbn [bind]; [|apply IH|reflexivity].
    rewrite (IH (contents ++ [r])), (IH ([] ++ [r])).
    destruct (load_loop_bert tokenize convert_tokens_to_ids [] rest P);
      cbn [bind]; [|reflexivity].
    now rewrite <- app_assoc.
Qed.

Lemma load_dataset_bert_cons (P : Z) (line : string) (rest : list string) :
  load_dataset_bert tokenize convert_tokens_to_ids (line :: rest) P
  = (r <- encode_line_bert tokenize convert_tokens_to_ids P line ;;
     rs <- load_dataset_bert tokenize convert_tokens_to_ids rest P ;;
     Ok (match r with Some rec => rec :: rs | None => rs end)).
Proof.
  unfold load_dataset_bert. cbn [load_loop_bert].
  destruct (encode_line_bert tokenize convert_tokens_to_ids P line)
    as [[r|]|e]; cbn [bind]; try reflexivity.
  - rewrite load_loop_bert_acc. reflexivity.
  - now destruct (load_loop_bert tokenize convert_tokens_to_ids [] rest P).
Qed.

(** The pass stops with [ValueError] at the first malformed line, and
    otherwise gives the encodings of the non-blank lines in order. *)
Lemma load_dataset_bert_outcome (P : Z) (file : list string) :
  (existsb malformed file = true
   /\ load_dataset_bert tokenize convert_tokens_to_ids file P
      = Raise ValueError)
  \/ (existsb malformed file = false
      /\ exists records,
           load_dataset_bert tokenize convert_tokens_to_ids file P
           = Ok records
           /\ map (encode_line_bert tokenize convert_tokens_to_ids P)
                  (filter nonblank file)
              = map (fun r => Ok (Some r)) records).
Proof.
  induction file as [|line rest IH].
  - right. split; [reflexivity|]. exists []. split; reflexivity.
  - rewrite load_dataset_bert_cons. cbn [existsb filter].
    destruct (encode_line_bert_cases P line)
      as [[Hblank Hline]|[[Hbad Hline]|[Hnb [Hgood [r Hline]]]]];
      rewrite Hline; cbn [bind].
    + assert (Hgood : malformed line = false).
      { unfold malformed. now rewrite Hblank. }
      rewrite Hgood, Hblank. cbn [orb].
      destruct IH as [[-> ->]|[-> [rs [-> Hrs]]]]; cbn [bind].
      * left. now split.
      * right. split; [reflexivity|]. exists rs. now split.
    + rewrite Hbad. left. now split.
    + rewrite Hgood, Hnb. cbn [orb map].
      destruct IH as [[-> ->]|[-> [rs [-> Hrs]]]]; cbn [bind].
      * left. now split.
      * right. split; [reflexivity|]. exists (r :: rs).
        split; [reflexivity|]. cbn [map]. now rewrite Hline, Hrs.
Qed.

End BertLoader.



(** For a positive pad size and a tokenizer that returns one id per token,
    the ids of a record are the first [P] ids of the marked token list
    followed by zeros up to length [P], and the mask has a one for each of
    these ids and a zero for each of the zeros. *)
Theorem bert_record_contents :
  forall (tokenize : string -> list string)
         (convert_tokens_to_ids : list string -> list Z) (P : Z)
         (line content lbl : string) (r : bert_record),
    (forall ts, Py.len (convert_tokens_to_ids ts) = Py.len ts) ->
    0 < P ->
    encode_line_bert tokenize convert_tokens_to_ids P line = Ok (Some r) ->
    Str.split "009"%char (Str.strip line) = [content; lbl] ->
    let ids := convert_tokens_to_ids (CLS :: tokenize content) in
    token_ids r
    = firstn (Z.to_nat P) ids ++ repeat 0 (Z.to_nat (P - Py.len ids))
    /\ mask r
       = repeat 1 (Z.to_nat (Z.min P (Py.len ids)))
         ++ repeat 0 (Z.to_nat (P - Py.len ids))
    /\ Str.int lbl = Ok (bert_label r).
Proof.
  intros tokenize convert P line content lbl r Hconv HP Henc Hsplit ids.
  destruct (encode_line_bert_inv tokenize convert P line r ltac:(lia) Henc)
    as [content' [lbl' [Hsplit' [Hint [_ Hshape]]]]].
  rewrite Hsplit in Hsplit'. injection Hsplit' as <- <-.
  cbv zeta in Hshape. fold ids in Hshape.
  assert (Hlen : Py.len (CLS :: tokenize content) = Py.len ids)
    by (unfold ids; now rewrite Hconv).
  rewrite Hlen in Hshape. pose proof (len_nonneg ids) as Hn.
  split; [|split; [|exact Hint]].
  - destruct (Z.ltb_spec (Py.len ids) P) as [Hlt|Hge];
      destruct Hshape as [_ ->].
    + unfold Py.times. rewrite firstn_all2 by (unfold Py.len in *; lia).
      reflexivity.
    + rewrite slice_prefix by lia.
      replace (Z.to_nat (P - Py.len ids)) with 0%nat by lia.
      now rewrite app_nil_r.
  - destruct (Z.ltb_spec (Py.len ids) P) as [Hlt|Hge];
      destruct Hshape as [-> _]; unfold Py.times.
    + now rewrite Z.min_r by lia.
    + rewrite Z.min_l by lia.
      replace (Z.to_nat (P - Py.len ids)) with 0%nat by lia.
      now rewrite app_nil_r.
Qed.

Lemma bert_record_contents_witness :
  let convert := map (fun t : string => Z.of_nat (String.length t)) in
  let r := {| token_ids := [5; 1; 1; 0]; bert_label := 2;
              bert_seq_len := 3; mask := [1; 1; 1; 0] |} in
  (forall ts, Py.len (convert ts) = Py.len ts)
  /\ 0 < 4
  /\ encode_line_bert Str.chars convert 4 (tabbed "ab" "2") = Ok (Some r)
  /\ Str.split "009"%char (Str.strip (tabbed "ab" "2")) = ["ab"; "2"]
  /\ token_ids r = [5; 1; 1; 0]
  /\ mask r = [1; 1; 1; 0]
  /\ Str.int "2" = Ok (bert_label r).
Proof.
  intros convert r.
  assert (H1 : forall ts, Py.len (convert ts) = Py.len ts)
    by (intros ts; apply len_map).
  assert (H2 : 0 < 4) by lia.
  assert (H3 : encode_line_bert Str.chars convert 4 (tabbed "ab" "2")
               = Ok (Some r)) by reflexivity.
  assert (H4 : Str.split "009"%char (Str.strip (tabbed "ab" "2"))
               = ["ab"; "2"]) by reflexivity.
  split; [exact H1|]. split; [exact H2|]. split; [exact H3|].
  split; [exact H4|].
  exact (bert_record_contents Str.chars convert 4 (tabbed "ab" "2") "ab" "2"
           r H1 H2 H3 H4).
Defined.

(** With pad size 0, or a negative one, the mask of every record is empty;
    with 0 the ids are those of all tokens, with a negative pad size the
    last [-P] ids are dropped; the recorded length is the token count with
    the marker in both cases. *)
Theorem bert_record_without_pad_size :
  forall (tokenize : string -> list string)
         (convert_tokens_to_ids : list string -> list Z) (P : Z)
         (line content lbl : string) (r : bert_record),
    P <= 0 ->
    encode_line_bert tokenize convert_tokens_to_ids P line = Ok (Some r) ->
    Str.split "009"%char (Str.strip line) = [content; lbl] ->
    let ids := convert_tokens_to_ids (CLS :: tokenize content) in
    mask r = []
    /\ token_ids r = firstn (Z.to_nat (Py.len ids + P)) ids
    /\ bert_seq_len r = 1 + Py.len (tokenize content).
Proof.
  intros tokenize convert P line content lbl r HP Henc Hsplit ids.
  unfold encode_line_bert in Henc.
  destruct (String.eqb (Str.strip line) ""); [discriminate|].
  rewrite Hsplit in Henc. cbn [unpack2 bind] in Henc. fold ids in Henc.
  pose proof (len_nonneg ids) as Hn.
  pose proof (len_nonneg (CLS :: tokenize content)) as Hn'.
  assert (Hcount : Py.len (CLS :: tokenize content)
                   = 1 + Py.len (tokenize content)).
  { unfold Py.len. cbn [List.length]. lia. }
  destruct (Z.eqb_spec P 0) as [->|HP0]; cbn [negb] in Henc.
  - destruct (Str.int lbl); cbn [bind] in Henc; [|discriminate].
    injection Henc as <-. cbn [mask token_ids bert_seq_len].
    rewrite Z.add_0_r. unfold Py.len at 1. rewrite Nat2Z.id, firstn_all.
    repeat split. exact Hcount.
  - destruct (Z.ltb_spec (Py.len (CLS :: tokenize content)) P) as [E|_];
      [lia|].
    destruct (Str.int lbl); cbn [bind] in Henc; [|discriminate].
    injection Henc as <-. cbn [mask token_ids bert_seq_len].
    split; [|split; [|exact Hcount]].
    + unfold Py.times. now replace (Z.to_nat P) with 0%nat by lia.
    + rewrite slice_is_prefix. unfold Py.clamp.
      destruct (Z.ltb_spec P 0) as [_|E]; [|lia]. f_equal. lia.
Qed.

Lemma bert_record_without_pad_size_witness :
  let convert := map (fun t : string => Z.of_nat (String.length t)) in
  let r := {| token_ids := [5; 1; 1]; bert_label := 2;
              bert_seq_len := 3; mask := [] |} in
  0 <= 0
  /\ encode_line_bert Str.chars convert 0 (tabbed "ab" "2") = Ok (Some r)
  /\ Str.split "009"%char (Str.strip (tabbed "ab" "2")) = ["ab"; "2"]
  /\ mask r = []
  /\ token_ids r = [5; 1; 1]
  /\ bert_seq_len r = 3.
Proof.
  intros convert r.
  assert (H1 : 0 <= 0) by lia.
  assert (H2 : encode_line_bert Str.chars convert 0 (tabbed "ab" "2")
               = Ok (Some r)) by reflexivity.
  assert (H3 : Str.split "009"%char (Str.strip (tabbed "ab" "2"))
               = ["ab"; "2"]) by reflexivity.
  split; [exact H1|]. split; [exact H2|]. split; [exact H3|].
  exact (bert_record_without_pad_size Str.chars convert 0 (tabbed "ab" "2")
           "ab" "2" r H1 H2 H3).
Defined.

(** * Tensor assembly: [_to_tensor] on the records of the encoders *)

Section Columns.

Context {A : Type}.
Variable as_tuple : A -> Tensors.tuple.

(** A column that every tuple has. *)
Lemma column_of (g : A -> Tensors.field) (i : Z) (rs : list A) :
  (forall r, In r rs -> Py.index (as_tuple r) i = Ok (g r)) ->
  Tensors.column (map as_tuple rs) i = Ok (map g rs).
Proof.
  induction rs as [|r rs IH]; intros H; cbn [map Tensors.column];
    [reflexivity|].
  rewrite (H r (or_introl eq_refl)). cbn [bind].
  rewrite IH by (intros r' Hr'; apply H; now right). reflexivity.
Qed.

(** A column that the first tuple does not have. *)
Lemma column_missing (i : Z) (r : A) (rs : list A) (e : exn) :
  Py.index (as_tuple r) i = Raise e ->
  Tensors.column (map as_tuple (r :: rs)) i = Raise e.
Proof. intros H. cbn [map Tensors.column]. now rewrite H. Qed.

End Columns.

(** The record of a line has five fields for FastText and three for every
    other model. *)
Lemma record_kind {device : Type} (cfg : config device) (vocab : Dict.t Z)
      (tokenizer_ : string -> list string) (P : Z) (line : string)
      (r : record) :
  encode_line cfg vocab tokenizer_ P line = Ok (Some r) ->
  if String.eqb (model_name cfg) "FastText"
  then exists w l n b t, r = Rec5 w l n b t
  else exists w l n, r = Rec3 w l n.
Proof.
  unfold encode_line.
  destruct (String.eqb (Str.strip line) ""); [discriminate|].
  destruct (Str.split "009"%char (Str.strip line)) as [|content [|lbl [|? ?]]];
    cbn [unpack2 bind]; try discriminate.
  destruct (pad_or_cut vocab (map Word (tokenizer_ content)) P) as [token n].
  destruct (String.eqb (model_name cfg) "FastText").
  - destruct (ngrams _ _ _ _ _) as [[b t]|]; cbn [bind]; [|discriminate].
    destruct (Str.int lbl); cbn [bind]; [|discriminate].
    intros H. injection H as <-. eauto 6.
  - destruct (Str.int lbl); cbn [bind]; [|discriminate].
    intros H. injection H as <-. eauto.
Qed.

(** The batches the iterator cuts from the records of the generic encoder,
    handed to [_to_tensor] under the model name the records were encoded
    for: FastText gets the ids, lengths, bigrams and trigrams; a name
    without "Bert" or "bert" gets ids and lengths; and a name with one of
    them asks every tuple for a fourth field that the generic encoder did
    not write, which raises [IndexError] unless the batch is empty. *)
Theorem generic_batches_in_to_tensor :
  forall (device tensor : Type)
         (LongTensor : list Tensors.field -> device -> tensor)
         (cfg : config device) (vocab : Dict.t Z)
         (tokenizer_ : string -> list string) (file : list string) (P : Z)
         (records : list record) (lo hi : Z),
    load_dataset cfg vocab tokenizer_ file P = Ok records ->
    let batch := Py.slice records lo hi in
    let dev := device_of cfg in
    let x := LongTensor (map (fun r => Tensors.Ints (words_line r)) batch) dev in
    let y := LongTensor (map (fun r => Tensors.Int (label r)) batch) dev in
    let lens := LongTensor (map (fun r => Tensors.Int (seq_len r)) batch) dev in
    let bi :=
      LongTensor (map (fun r => Tensors.Ints (map Some (bigram r))) batch) dev in
    let tri :=
      LongTensor (map (fun r => Tensors.Ints (map Some (trigram r))) batch) dev in
    Tensors._to_tensor LongTensor dev (model_name cfg)
                       (map Tensors.of_record batch)
    = if String.eqb (model_name cfg) "FastText"
      then Ok (Tensors.NGram x lens bi tri, y)
      else if bert_named (model_name cfg)
           then match batch with
                | [] => Ok (Tensors.Masked x lens (LongTensor [] dev), y)
                | _ :: _ => Raise IndexError
                end
           else Ok (Tensors.Plain x lens, y).
Proof.
  intros device tensor LongTensor cfg vocab tokenizer_ file P records lo hi
         Hload batch dev x y lens bi tri.
  assert (Hkind : forall r, In r batch ->
            if String.eqb (model_name cfg) "FastText"
            then exists w l n b t, r = Rec5 w l n b t
            else exists w l n, r = Rec3 w l n).
  { intros r Hr. apply slice_incl in Hr.
    destruct (load_loop_inv cfg vocab tokenizer_ P file [] records r Hload Hr)
      as [[]|[line [_ Henc]]].
    eapply record_kind; eassumption. }
  assert (H0 : Tensors.column (map Tensors.of_record batch) 0
               = Ok (map (fun r => Tensors.Ints (words_line r)) batch)).
  { apply column_of. intros r _. now destruct r. }
  assert (H1 : Tensors.column (map Tensors.of_record batch) 1
               = Ok (map (fun r => Tensors.Int (label r)) batch)).
  { apply column_of. intros r _. now destruct r. }
  assert (H2 : Tensors.column (map Tensors.of_record batch) 2
               = Ok (map (fun r => Tensors.Int (seq_len r)) batch)).
  { apply column_of. intros r _. now destruct r. }
  unfold Tensors._to_tensor. rewrite H0, H1, H2. cbn [bind].
  fold (bert_named (model_name cfg)).
  destruct (String.eqb (model_name cfg) "FastText").
  - rewrite (column_of Tensors.of_record
               (fun r => Tensors.Ints (map Some (bigram r))) 3).
    + rewrite (column_of Tensors.of_record
                 (fun r => Tensors.Ints (map Some (trigram r))) 4);
        [reflexivity|].
      intros r Hr. destruct (Hkind r Hr) as [w [l [n [b [t ->]]]]].
      reflexivity.
    + intros r Hr. destruct (Hkind r Hr) as [w [l [n [b [t ->]]]]].
      reflexivity.
  - destruct (bert_named (model_name cfg)); [|reflexivity].
    destruct batch as [|r rest] eqn:Hbatch; [reflexivity|].
    destruct (Hkind r (or_introl eq_refl)) as [w [l [n ->]]].
    rewrite (column_missing Tensors.of_record 3 _ rest IndexError);
      reflexivity.
Qed.

Lemma generic_batches_in_to_tensor_witness :
  let cfg := {| model_name := "bert"; pad_size := 2; batch_size := 1;
                n_gram_vocab := 100; device_of := tt |} in
  let vocab := [("a", 0); (UNK, 1); (PAD, 2)] in
  let LongTensor := fun (values : list Tensors.field) (_ : unit) => values in
  let records := [Rec3 [Some 0; Some 1] 3 1] in
  load_dataset cfg vocab (tokenizer false) [tabbed "a" "3"] 2 = Ok records
  /\ Tensors._to_tensor LongTensor tt "bert"
       (map Tensors.of_record (Py.slice records 0 1))
     = Raise IndexError.
Proof.
  intros cfg vocab LongTensor records.
  assert (H : load_dataset cfg vocab (tokenizer false) [tabbed "a" "3"] 2
              = Ok records) by reflexivity.
  split; [exact H|].
  exact (generic_batches_in_to_tensor unit (list Tensors.field) LongTensor cfg
           vocab (tokenizer false) [tabbed "a" "3"] 2 records 0 1 H).
Defined.

(** The records of the sub-word encoder in [_to_tensor]: a model name with
    "Bert" or "bert" gets ids, lengths and masks; any other name but
    FastText gets ids and lengths only, the masks are left out; and
    FastText asks for a fifth field, which raises [IndexError] unless the
    batch is empty. *)
Theorem bert_batches_in_to_tensor :
  forall (device tensor : Type)
         (LongTensor : list Tensors.field -> device -> tensor)
         (dev : device) (name : string) (batch : list bert_record),
    let x :=
      LongTensor (map (fun r => Tensors.Ints (map Some (token_ids r))) batch)
                 dev in
    let y := LongTensor (map (fun r => Tensors.Int (bert_label r)) batch) dev in
    let lens :=
      LongTensor (map (fun r => Tensors.Int (bert_seq_len r)) batch) dev in
    let masks :=
      LongTensor (map (fun r => Tensors.Ints (map Some (mask r))) batch) dev in
    Tensors._to_tensor LongTensor dev name
                       (map Tensors.of_bert_record batch)
    = if String.eqb name "FastText"
      then match batch with
           | [] => Ok (Tensors.NGram x lens masks (LongTensor [] dev), y)
           | _ :: _ => Raise IndexError
           end
      else if bert_named name
           then Ok (Tensors.Masked x lens masks, y)
           else Ok (Tensors.Plain x lens, y).
Proof.
  intros device tensor LongTensor dev name batch x y lens masks.
  unfold Tensors._to_tensor.
  rewrite (column_of Tensors.of_bert_record
             (fun r => Tensors.Ints (map Some (token_ids r))) 0)
    by reflexivity.
  rewrite (column_of Tensors.of_bert_record
             (fun r => Tensors.Int (bert_label r)) 1) by reflexivity.
  rewrite (column_of Tensors.of_bert_record
             (fun r => Tensors.Int (bert_seq_len r)) 2) by reflexivity.
  cbn [bind]. fold (bert_named name).
  rewrite (column_of Tensors.of_bert_record
             (fun r => Tensors.Ints (map Some (mask r))) 3) by reflexivity.
  cbn [bind].
  destruct (String.eqb name "FastText").
  - destruct batch as [|r rest]; [reflexivity|].
    rewrite (column_missing Tensors.of_bert_record 4 r rest IndexError);
      reflexivity.
  - now destruct (bert_named name).
Qed.

(** * The order of equally frequent words *)

Section Before.

Context {A : Type}.

Lemma before_in (l : list A) (a b : A) : before l a b -> In a l /\ In b l.
Proof.
  induction 1 as [a b l Hb|x a b l _ [Ha Hb]].
  - split; [now left|now right].
  - split; now right.
Qed.

Lemma before_app_l (l1 l2 : list A) (a b : A) :
  before l1 a b -> before (l1 ++ l2) a b.
Proof.
  induction 1 as [a b l Hb|x a b l _ IH]; cbn.
  - apply before_here. apply in_or_app. now left.
  - now apply before_later.
Qed.

Lemma before_app_r (l1 l2 : list A) (a b : A) :
  before l2 a b -> before (l1 ++ l2) a b.
Proof.
  intros H. induction l1 as [|x l1 IH]; [exact H|].
  cbn. now apply before_later.
Qed.

Lemma before_app_mid (l1 l2 : list A) (a b : A) :
  In a l1 -> In b l2 -> before (l1 ++ l2) a b.
Proof.
  intros Ha Hb. induction l1 as [|x l1 IH]; [destruct Ha|].
  cbn. destruct Ha as [->|Ha].
  - apply before_here. apply in_or_app. now right.
  - apply before_later. now apply IH.
Qed.

Lemma before_app_inv (l1 l2 : list A) (a b : A) :
  before (l1 ++ l2) a b ->
  before l1 a b \/ before l2 a b \/ (In a l1 /\ In b l2).
Proof.
  induction l1 as [|x l1 IH]; cbn; intros H; [now right; left|].
  inversion H as [a' b' l Hb|x' a' b' l Hl]; subst.
  - apply in_app_or in Hb. destruct Hb as [Hb|Hb].
    + left. now apply before_here.
    + right; right. split; [now left|exact Hb].
  - destruct (IH Hl) as [H1|[H2|[Ha Hb]]].
    + left. now apply before_later.
    + right; now left.
    + right; right. split; [now right|exact Hb].
Qed.

Lemma before_map {B : Type} (f : A -> B) (l : list A) (a b : A) :
  before l a b -> before (map f l) (f a) (f b).
Proof.
  induction 1 as [a b l Hb|x a b l _ IH]; cbn.
  - apply before_here. now apply in_map.
  - now apply before_later.
Qed.

Lemma before_filter (p : A -> bool) (l : list A) (a b : A) :
  before (filter p l) a b -> before l a b.
Proof.
  induction l as [|x l IH]; cbn; [intros H; inversion H|].
  destruct (p x).
  - intros H. inversion H as [a' b' l' Hb|x' a' b' l' Hl]; subst.
    + apply before_here. now apply filter_In in Hb.
    + apply before_later. now apply IH.
  - intros H. apply before_later. now apply IH.
Qed.

Lemma before_firstn (n : nat) (l : list A) (a b : A) :
  before (firstn n l) a b -> before l a b.
Proof.
  revert n. induction l as [|x l IH]; intros [|n]; cbn; intros H;
    try (now inversion H).
  inversion H as [a' b' l' Hb|x' a' b' l' Hl]; subst.
  - apply before_here. eapply firstn_incl; eassumption.
  - apply before_later. eapply IH; eassumption.
Qed.

Lemma before_nth (l : list A) :
  forall (i j : nat) (a b : A),
    (i < j)%nat -> nth_error l i = Some a -> nth_error l j = Some b ->
    before l a b.
Proof.
  induction l as [|x l IH]; intros i j a b Hij Hi Hj.
  - destruct i; discriminate.
  - destruct j as [|j]; [lia|]. cbn in Hj. destruct i as [|i]; cbn in Hi.
    + injection Hi as <-. apply before_here.
      eapply nth_error_In; eassumption.
    + apply before_later. eapply (IH i j); [lia|eassumption|eassumption].
Qed.

End Before.

(** Where the sort puts an item: behind the items of larger count that were
    in front, before everything else. *)
Lemma insert_desc_split (x : string * Z) (l : list (string * Z)) :
  exists l1 l2,
    l = l1 ++ l2 /\ insert_desc x l = l1 ++ x :: l2
    /\ Forall (fun y => snd x < snd y) l1.
Proof.
  induction l as [|y l IH]; cbn.
  - exists [], []. repeat split. constructor.
  - destruct (Z.gtb_spec (snd y) (snd x)) as [Hgt|Hle].
    + destruct IH as [l1 [l2 [-> [-> Hl1]]]].
      exists (y :: l1), l2. repeat split. constructor; [lia|exact Hl1].
    + exists [], (y :: l). repeat split. constructor.
Qed.

Lemma before_insert_desc (x a b : string * Z) (l : list (string * Z)) :
  before (insert_desc x l) a b -> snd a = snd b -> before (x :: l) a b.
Proof.
  destruct (insert_desc_split x l) as [l1 [l2 [-> [-> Hl1]]]].
  intros H Heq. apply before_app_inv in H.
  destruct H as [H1|[H2|[Ha Hb]]].
  - apply before_later. now apply before_app_l.
  - inversion H2 as [a' b' l' Hb|x' a' b' l' Hl]; subst.
    + apply before_here. apply in_or_app. now right.
    + apply before_later. now apply before_app_r.
  - destruct Hb as [<-|Hb].
    + rewrite Forall_forall in Hl1. specialize (Hl1 a Ha). lia.
    + apply before_later. now apply before_app_mid.
Qed.

(** The sort is stable: two items of equal count are in the order they had
    before. *)
Lemma before_sorted_desc (l : list (string * Z)) (a b : string * Z) :
  before (sorted_desc l) a b -> snd a = snd b -> before l a b.
Proof.
  induction l as [|x l IH]; cbn; intros H Heq; [inversion H|].
  fold (sorted_desc l) in H. apply before_insert_desc in H; [|exact Heq].
  inversion H as [a' b' l' Hb|x' a' b' l' Hl]; subst.
  - apply before_here.
    eapply Permutation_in; [apply sorted_desc_perm|exact Hb].
  - apply before_later. now apply IH.
Qed.

(** The keys of the counts are the tokens in the order they were first
    seen. *)
Lemma counts_in_first_seen_order (ws : list string) :
  forall (tokens : list string) (d : Dict.t Z),
    (forall w, In w (Dict.keys d) <-> In w tokens) ->
    (forall a b, before (Dict.keys d) a b -> seen_before tokens a b) ->
    let d' := fold_left count_word ws d in
    (forall w, In w (Dict.keys d') <-> In w (tokens ++ ws))
    /\ (forall a b, before (Dict.keys d') a b ->
                    seen_before (tokens ++ ws) a b).
Proof.
  induction ws as [|w ws IH]; intros tokens d Hkeys Horder; cbn [fold_left].
  - rewrite app_nil_r. now split.
  - replace (tokens ++ w :: ws) with ((tokens ++ [w]) ++ ws)
      by (now rewrite <- app_assoc).
    apply IH; unfold count_word; rewrite keys_set;
      destruct (in_dec string_dec w (Dict.keys d)) as [Hin|Hnew].
    + intros x. rewrite in_app_iff, Hkeys. cbn. split; [tauto|].
      intros [H|[<-|[]]]; [exact H|now apply Hkeys].
    + intros x. rewrite !in_app_iff, Hkeys. reflexivity.
    + intros a b H. destruct (Horder a b H) as [t1 [t2 [-> [Hb Hne]]]].
      exists t1, (t2 ++ [w]). rewrite <- app_assoc. now repeat split.
    + intros a b H. apply before_app_inv in H.
      destruct H as [H|[H|[Ha Hb]]].
      * destruct (Horder a b H) as [t1 [t2 [-> [Hb Hne]]]].
        exists t1, (t2 ++ [w]). rewrite <- app_assoc. now repeat split.
      * inversion H as [a' b' l' Hb|x' a' b' l' Hl]; subst;
          [destruct Hb|inversion Hl].
      * destruct Hb as [<-|[]]. apply Hkeys in Ha.
        apply in_split in Ha. destruct Ha as [t1 [t2 ->]].
        exists t1, (t2 ++ [w]). rewrite <- app_assoc. repeat split.
        -- intros Hw. apply Hnew, Hkeys, in_or_app. now left.
        -- intros ->. apply Hnew, Hkeys, in_or_app. right. now left.
Qed.

(** Words that occur equally often get their ids in the order in which they
    first appear in the corpus: of two such words of the vocabulary that
    are no markers, the one with the smaller id is seen before the first
    occurrence of the other. *)
Theorem equal_counts_keep_first_seen_order :
  forall (file : list string) (tokenizer_ : string -> list string)
         (max_size min_freq : Z) (w1 w2 : string) (i1 i2 : Z),
    w1 <> UNK -> w1 <> PAD -> w2 <> UNK -> w2 <> PAD ->
    Dict.get (build_vocab file tokenizer_ max_size min_freq) w1 = Some i1 ->
    Dict.get (build_vocab file tokenizer_ max_size min_freq) w2 = Some i2 ->
    i1 < i2 ->
    occurrences (corpus_tokens tokenizer_ file) w1
    = occurrences (corpus_tokens tokenizer_ file) w2 ->
    seen_before (corpus_tokens tokenizer_ file) w1 w2.
Proof.
  intros file tokenizer_ max_size min_freq w1 w2 i1 i2 Hu1 Hp1 Hu2 Hp2
         H1 H2 Hlt Heq.
  destruct (word_id_position file tokenizer_ max_size min_freq w1 i1 Hu1 Hp1 H1)
    as [Hi1 [Hn1 _]].
  destruct (word_id_position file tokenizer_ max_size min_freq w2 i2 Hu2 Hp2 H2)
    as [Hi2 [Hn2 _]].
  pose proof (before_nth _ (Z.to_nat i1) (Z.to_nat i2) _ _ ltac:(lia) Hn1 Hn2)
    as Hbefore.
  rewrite slice_is_prefix in Hbefore.
  apply before_firstn, before_sorted_desc in Hbefore; [|exact Heq].
  apply before_filter, (before_map fst) in Hbefore. cbn [fst] in Hbefore.
  rewrite count_lines_as_words in Hbefore.
  destruct (counts_in_first_seen_order (corpus_tokens tokenizer_ file) [] [])
    as [_ Horder].
  - intros w. reflexivity.
  - intros a b H. inversion H.
  - now apply Horder.
Qed.

Lemma equal_counts_keep_first_seen_order_witness :
  let file := [tabbed "on the mat" "0"; tabbed "the cat" "1"] in
  let v := build_vocab file (tokenizer true) 10 1 in
  Dict.get v "on" = Some 1 /\ Dict.get v "cat" = Some 3
  /\ seen_before (corpus_tokens (tokenizer true) file) "on" "cat".
Proof.
  intros file v.
  assert (H1 : Dict.get v "on" = Some 1) by reflexivity.
  assert (H2 : Dict.get v "cat" = Some 3) by reflexivity.
  split; [exact H1|]. split; [exact H2|].
  apply (equal_counts_keep_first_seen_order file (tokenizer true) 10 1
           "on" "cat" 1 3); try discriminate; try assumption;
    [lia|reflexivity].
Defined.

(** An id stands for one word: two words of a built vocabulary that are no
    markers and have the same id are the same word. *)
Theorem word_ids_are_unique :
  forall (file : list string) (tokenizer_ : string -> list string)
         (max_size min_freq : Z) (w1 w2 : string) (i : Z),
    w1 <> UNK -> w1 <> PAD -> w2 <> UNK -> w2 <> PAD ->
    Dict.get (build_vocab file tokenizer_ max_size min_freq) w1 = Some i ->
    Dict.get (build_vocab file tokenizer_ max_size min_freq) w2 = Some i ->
    w1 = w2.
Proof.
  intros file tokenizer_ max_size min_freq w1 w2 i Hu1 Hp1 Hu2 Hp2 H1 H2.
  destruct (word_id_position file tokenizer_ max_size min_freq w1 i Hu1 Hp1 H1)
    as [_ [Hn1 _]].
  destruct (word_id_position file tokenizer_ max_size min_freq w2 i Hu2 Hp2 H2)
    as [_ [Hn2 _]].
  rewrite Hn1 in Hn2. now injection Hn2.
Qed.

Lemma word_ids_are_unique_witness :
  let file := [tabbed "on the mat" "0"; tabbed "the cat" "1"] in
  let v := build_vocab file (tokenizer true) 10 1 in
  Dict.get v "mat" = Some 2 /\ "mat" = "mat".
Proof.
  intros file v.
  assert (H : Dict.get v "mat" = Some 2) by reflexivity.
  split; [exact H|].
  apply (word_ids_are_unique file (tokenizer true) 10 1 "mat" "mat" 2);
    try discriminate; exact H.
Defined.
